(** * JSON schema validator (launch_control/utils/json/schema.py)

    A shallow embedding of the [Schema] keyword accessors and of the
    recursive [Validator], followed by the properties established about
    them.

    Python values are a closed inductive type; exceptions are an
    enumeration; the validator's [_obj_stack] is threaded explicitly and
    survives a raised exception exactly as the Python list does. *)

From Stdlib Require Import List String Ascii ZArith QArith Bool Arith Lia.
Import ListNotations.
Local Open Scope string_scope.
Local Open Scope list_scope.
Local Close Scope Q_scope.

Set Implicit Arguments.
Set Warnings "-register-all".

(** ** Python values *)

(** The values [simplejson.loads] produces.  [int] and [long] are kept
    apart because [isinstance(x, int)] tells them apart; a finite float
    is held as the rational it denotes; [str] and [unicode] are both
    [basestring] and are one constructor.  A dict is the list of its
    entries in iteration order. *)
Inductive pyobj : Type :=
| PyNone
| PyBool (b : bool)
| PyInt (z : Z)
| PyLong (z : Z)
| PyFloat (q : Q)
| PyStr (s : string)
| PyList (items : list pyobj)
| PyDict (entries : list (string * pyobj)).

Inductive pyclass : Type :=
| C_basestring | C_dict | C_list | C_int | C_float | C_Decimal | C_NoneType.

(** [bool] is a subclass of [int] in Python. *)
Definition instance_of (v : pyobj) (c : pyclass) : bool :=
  match c, v with
  | C_basestring, PyStr _ => true
  | C_dict, PyDict _ => true
  | C_list, PyList _ => true
  | C_int, PyInt _ => true
  | C_int, PyBool _ => true
  | C_float, PyFloat _ => true
  | C_NoneType, PyNone => true
  | _, _ => false
  end.

(** [isinstance(v, (c1, ..., cn))] *)
Definition isinstance (v : pyobj) (cs : list pyclass) : bool :=
  existsb (instance_of v) cs.

Definition NUMERIC_TYPES : list pyclass := [C_int; C_float; C_Decimal].

(** [v is None], [v is True], [v is False]: identity with a singleton. *)
Definition is_None (v : pyobj) : bool :=
  match v with PyNone => true | _ => false end.
Definition is_True (v : pyobj) : bool :=
  match v with PyBool true => true | _ => false end.
Definition is_False (v : pyobj) : bool :=
  match v with PyBool false => true | _ => false end.

(** The number a numeric value denotes ([True] is 1, [False] is 0). *)
Definition num_of (v : pyobj) : option Q :=
  match v with
  | PyBool b => Some (if b then 1%Q else 0%Q)
  | PyInt z => Some (inject_Z z)
  | PyLong z => Some (inject_Z z)
  | PyFloat q => Some q
  | _ => None
  end.

(** [a == b].  Numbers compare by the number they denote, whatever their
    class; [None] equals only itself; strings compare by contents.  The
    validator only ever compares with a hashable scalar on one side (the
    containers are filtered out first, by [isinstance] or by the hashing of
    [x in seen]), where a container is equal to nothing. *)
Definition py_eq (a b : pyobj) : bool :=
  match num_of a, num_of b with
  | Some x, Some y => Qeq_bool x y
  | _, _ =>
      match a, b with
      | PyNone, PyNone => true
      | PyStr s, PyStr t => String.eqb s t
      | _, _ => false
      end
  end.

(** [v < 0] on a numeric value. *)
Definition py_negative (v : pyobj) : bool :=
  match num_of v with
  | Some x => negb (Qle_bool 0%Q x)
  | None => false
  end.

(** [v == {}] *)
Definition is_empty_dict (v : pyobj) : bool :=
  match v with PyDict [] => true | _ => false end.

(** [hash(v)] raises [TypeError] on a list or a dict. *)
Definition hashable (v : pyobj) : bool :=
  match v with PyList _ | PyDict _ => false | _ => true end.

(** *** Dictionaries *)

Fixpoint lookup (k : string) (d : list (string * pyobj)) : option pyobj :=
  match d with
  | [] => None
  | (k', v) :: rest => if String.eqb k k' then Some v else lookup k rest
  end.

(** [d.get(k, default)] *)
Definition dict_get (d : list (string * pyobj)) (k : string)
    (default : pyobj) : pyobj :=
  match lookup k d with Some v => v | None => default end.

(** [k in d] *)
Definition has_key (k : string) (d : list (string * pyobj)) : bool :=
  match lookup k d with Some _ => true | None => false end.

(** [str.lower] on the ASCII letters (a [unicode] value with cased
    letters outside ASCII is not modelled). *)
Definition lower_ascii (c : ascii) : ascii :=
  let n := nat_of_ascii c in
  if (65 <=? n)%nat && (n <=? 90)%nat then ascii_of_nat (n + 32) else c.

Fixpoint lower (s : string) : string :=
  match s with
  | EmptyString => EmptyString
  | String c rest => String (lower_ascii c) (lower rest)
  end.

Definition str_in (s : string) (l : list string) : bool :=
  existsb (String.eqb s) l.

(** Nesting depth: scalars and empty containers are at depth 0. *)
Fixpoint height (v : pyobj) : nat :=
  match v with
  | PyList (x :: l) =>
      S (fold_right (fun y acc => Nat.max (height y) acc) (height x) l)
  | PyDict ((_, x) :: d) =>
      S (fold_right (fun kv acc => let '(_, y) := kv in Nat.max (height y) acc)
           (height x) d)
  | _ => 0
  end.

(** ** Exceptions and results *)

Inductive exn : Type :=
| SchemaError
| ValidationError
| NotImplementedError
| TypeError
| AttributeError
| KeyError
| IndexError
| UnboundLocalError
| AssertionError
| ValueError
| OverflowError.

Inductive res (A : Type) : Type :=
| Ok (a : A)
| Err (e : exn).
Arguments Ok {A} a.
Arguments Err {A} e.

Definition res_bind {A B} (r : res A) (f : A -> res B) : res B :=
  match r with Ok a => f a | Err e => Err e end.

Declare Scope res_scope.
Delimit Scope res_scope with res.
Notation "x <- r ;; k" := (res_bind r (fun x => k))
  (at level 61, r at next level, right associativity) : res_scope.
Notation "r ;; k" := (res_bind r (fun _ => k))
  (at level 61, right associativity) : res_scope.

(** What [re.compile] does with a string. *)
Inductive re_outcome : Type :=
| Compiled
| ReError
| ReRaises (e : exn).

(** ** class Schema *)

Module Schema.

(** A [Schema] object holds the dictionary it was built from. *)
Record t : Type := Build { _schema : list (string * pyobj) }.

(** [Schema.__init__] *)
Definition __init__ (json_obj : pyobj) : res t :=
  match json_obj with
  | PyDict d => Ok (Build d)
  | _ => Err SchemaError
  end.

Definition simple_type_names : list string :=
  ["string"; "number"; "integer"; "boolean"; "object"; "array"; "null";
   "any"].

Definition is_simple_type_name (v : pyobj) : bool :=
  match v with PyStr s => str_in s simple_type_names | _ => false end.

(** The loop of [type] and of [disallow] over the list of alternatives:
    a dict is skipped, [x in seen] hashes [x], a duplicate and an unknown
    name are schema errors. *)
Fixpoint check_type_list (seen : list pyobj) (type_list : list pyobj)
    : res unit :=
  match type_list with
  | [] => Ok tt
  | js_type :: rest =>
      if isinstance js_type [C_dict] then check_type_list seen rest
      else if negb (hashable js_type) then Err TypeError
      else if existsb (py_eq js_type) seen then Err SchemaError
      else if negb (is_simple_type_name js_type) then Err SchemaError
      else check_type_list (js_type :: seen) rest
  end.

Definition as_list (value : pyobj) : list pyobj :=
  match value with PyList l => l | _ => [value] end.

Definition type (self : t) : res (list pyobj) :=
  let value := dict_get (_schema self) "type" (PyStr "any") in
  if negb (isinstance value [C_basestring; C_dict; C_list])
  then Err SchemaError
  else
    let type_list := as_list value in
    (check_type_list [] type_list ;; Ok type_list)%res.

Definition properties (self : t) : res (list (string * pyobj)) :=
  let value := dict_get (_schema self) "properties" (PyDict []) in
  match value with
  | PyDict d => Ok d
  | _ => Err SchemaError
  end.

Definition items (self : t) : res pyobj :=
  let value := dict_get (_schema self) "items" (PyDict []) in
  if negb (isinstance value [C_list; C_dict]) then Err SchemaError
  else Ok value.

Definition optional (self : t) : res bool :=
  let value := dict_get (_schema self) "optional" (PyBool false) in
  match value with
  | PyBool b => Ok b
  | _ => Err SchemaError
  end.

Definition additionalProperties (self : t) : res pyobj :=
  let value := dict_get (_schema self) "additionalProperties" (PyDict []) in
  if negb (isinstance value [C_dict]) && negb (is_False value)
  then Err SchemaError
  else Ok value.

Definition requires (self : t) : res pyobj :=
  let value := dict_get (_schema self) "requires" (PyDict []) in
  if negb (isinstance value [C_basestring; C_dict]) then Err SchemaError
  else Ok value.

(** [None] or a number. *)
Definition numeric_or_None (self : t) (key : string) : res (option pyobj) :=
  let value := dict_get (_schema self) key PyNone in
  if is_None value then Ok None
  else if negb (isinstance value NUMERIC_TYPES) then Err SchemaError
  else Ok (Some value).

Definition minimum (self : t) : res (option pyobj) :=
  numeric_or_None self "minimum".

Definition maximum (self : t) : res (option pyobj) :=
  numeric_or_None self "maximum".

Definition minimumCanEqual (self : t) : res bool :=
  (m <- minimum self ;;
   match m with
   | None => Err SchemaError
   | Some _ =>
       match dict_get (_schema self) "minimumCanEqual" (PyBool true) with
       | PyBool b => Ok b
       | _ => Err SchemaError
       end
   end)%res.

Definition maximumCanEqual (self : t) : res bool :=
  (m <- maximum self ;;
   match m with
   | None => Err SchemaError
   | Some _ =>
       match dict_get (_schema self) "maximumCanEqual" (PyBool true) with
       | PyBool b => Ok b
       | _ => Err SchemaError
       end
   end)%res.

(** An [int] that is not negative, 0 when absent: [minItems], [minLength]. *)
Definition non_negative_int (self : t) (key : string) : res pyobj :=
  let value := dict_get (_schema self) key (PyInt 0) in
  if negb (isinstance value [C_int]) then Err SchemaError
  else if py_negative value then Err SchemaError
  else Ok value.

(** [None] or an [int]: [maxItems], [maxLength]. *)
Definition int_or_None (self : t) (key : string) : res (option pyobj) :=
  let value := dict_get (_schema self) key PyNone in
  if is_None value then Ok None
  else if negb (isinstance value [C_int]) then Err SchemaError
  else Ok (Some value).

Definition minItems (self : t) : res pyobj := non_negative_int self "minItems".
Definition maxItems (self : t) : res (option pyobj) :=
  int_or_None self "maxItems".

Definition uniqueItems (self : t) : res bool :=
  let value := dict_get (_schema self) "uniqueItems" (PyBool false) in
  match value with
  | PyBool b => Ok b
  | _ => Err SchemaError
  end.

(** [re.compile(value)] is the library's.  On a string it returns a
    compiled pattern, raises [re.error], which [pattern] catches, or
    raises something else ([OverflowError] on a repeat count that is too
    large, for one), which [pattern] lets through: [re_compile] says
    which.  The result of [pattern] stands for the compiled object. *)
Definition pattern (re_compile : string -> re_outcome) (self : t)
    : res (option string) :=
  let value := dict_get (_schema self) "pattern" PyNone in
  if is_None value then Ok None
  else
    match value with
    | PyStr s =>
        match re_compile s with
        | Compiled => Ok (Some s)
        | ReError => Err SchemaError
        | ReRaises e => Err e
        end
    | _ => Err TypeError
    end.

Definition minLength (self : t) : res pyobj :=
  non_negative_int self "minLength".
Definition maxLength (self : t) : res (option pyobj) :=
  int_or_None self "maxLength".

(** The loop of [enum]: [item in seen] hashes [item]. *)
Fixpoint check_enum (seen : list pyobj) (value : list pyobj) : res unit :=
  match value with
  | [] => Ok tt
  | item :: rest =>
      if negb (hashable item) then Err TypeError
      else if existsb (py_eq item) seen then Err SchemaError
      else check_enum (item :: seen) rest
  end.

Definition enum (self : t) : res (option (list pyobj)) :=
  let value := dict_get (_schema self) "enum" PyNone in
  if is_None value then Ok None
  else
    match value with
    | PyList l =>
        if (List.length l =? 0)%nat then Err SchemaError
        else (check_enum [] l ;; Ok (Some l))%res
    | _ => Err SchemaError
    end.

(** [None] or a string: [title], [description]. *)
Definition string_or_None (self : t) (key : string) : res (option string) :=
  let value := dict_get (_schema self) key PyNone in
  if is_None value then Ok None
  else
    match value with
    | PyStr s => Ok (Some s)
    | _ => Err SchemaError
    end.

Definition title (self : t) : res (option string) :=
  string_or_None self "title".
Definition description (self : t) : res (option string) :=
  string_or_None self "description".

Definition format (self : t) : res (option string) :=
  let value := dict_get (_schema self) "format" PyNone in
  if is_None value then Ok None
  else
    match value with
    | PyStr s =>
        if str_in s ["date-time"] then Ok (Some s)
        else Err NotImplementedError
    | _ => Err SchemaError
    end.

(** [value.lower()] exists on strings only. *)
Definition contentEncoding (self : t) : res (option string) :=
  let value := dict_get (_schema self) "contentEncoding" PyNone in
  if is_None value then Ok None
  else
    match value with
    | PyStr s =>
        if negb (str_in (lower s)
                   ["7bit"; "8bit"; "binary"; "quoted-printable"; "base64";
                    "ietf-token"; "x-token"])
        then Err SchemaError
        else if negb (String.eqb (lower s) "base64")
        then Err NotImplementedError
        else Ok (Some s)
    | _ => Err AttributeError
    end.

Definition divisibleBy (self : t) : res (option pyobj) :=
  let value := dict_get (_schema self) "divisibleBy" (PyInt 1) in
  if is_None value then Ok None
  else if negb (isinstance value NUMERIC_TYPES) then Err SchemaError
  else if py_negative value then Err SchemaError
  else Ok (Some value).

Definition disallow (self : t) : res (option (list pyobj)) :=
  let value := dict_get (_schema self) "disallow" PyNone in
  if is_None value then Ok None
  else if negb (isinstance value [C_basestring; C_dict; C_list])
  then Err SchemaError
  else
    let disallow_list := as_list value in
    (check_type_list [] disallow_list ;; Ok (Some disallow_list))%res.

Definition extends (self : t) : res unit := Err NotImplementedError.

End Schema.

(** ** The validator's monad

    A method of [Validator] runs on the object stack [self._obj_stack]
    (the last element is the top), and returns, raises, or runs out of the
    recursion budget.  The stack it leaves behind is part of the result in
    all three cases: an exception does not undo an [append]. *)

Inductive outcome (A : Type) : Type :=
| Returned (a : A)
| Raised (e : exn)
| Exhausted.
Arguments Returned {A} a.
Arguments Raised {A} e.
Arguments Exhausted {A}.

Definition M (A : Type) : Type := list pyobj -> outcome A * list pyobj.

Definition ret {A} (a : A) : M A := fun st => (Returned a, st).

Definition raise {A} (e : exn) : M A := fun st => (Raised e, st).

Definition bind {A B} (m : M A) (f : A -> M B) : M B :=
  fun st =>
    match m st with
    | (Returned a, st') => f a st'
    | (Raised e, st') => (Raised e, st')
    | (Exhausted, st') => (Exhausted, st')
    end.

Definition lift {A} (r : res A) : M A :=
  match r with Ok a => ret a | Err e => raise e end.

(** [self._obj_stack.append(obj)] *)
Definition append (obj : pyobj) : M unit :=
  fun st => (Returned tt, st ++ [obj]).

(** [self._obj_stack.pop()] *)
Definition pop : M unit :=
  fun st =>
    match st with
    | [] => (Raised IndexError, st)
    | _ :: _ => (Returned tt, removelast st)
    end.

(** [self._obj_stack] *)
Definition get_stack : M (list pyobj) := fun st => (Returned st, st).

(** [try: body finally: final] *)
Definition try_finally {A} (body : M A) (final : M unit) : M A :=
  fun st =>
    match body st with
    | (Exhausted, st') => (Exhausted, st')
    | (o, st') =>
        match final st' with
        | (Returned _, st'') => (o, st'')
        | (Raised e, st'') => (Raised e, st'')
        | (Exhausted, st'') => (Exhausted, st'')
        end
    end.

Declare Scope M_scope.
Delimit Scope M_scope with M.
Notation "x <- m ;; k" := (bind m (fun x => k))
  (at level 61, m at next level, right associativity) : M_scope.
Notation "m ;; k" := (bind m (fun _ => k))
  (at level 61, right associativity) : M_scope.

(** [itertools.izip_longest(xs, ys, fillvalue=fill)] *)
Fixpoint izip_longest (xs ys : list pyobj) (fill : pyobj)
    : list (pyobj * pyobj) :=
  match xs, ys with
  | [], [] => []
  | x :: xs', [] => (x, fill) :: izip_longest xs' [] fill
  | [], y :: ys' => (fill, y) :: map (fun y' => (fill, y')) ys'
  | x :: xs', y :: ys' => (x, y) :: izip_longest xs' ys' fill
  end.

(** ** class Validator *)

Module Validator.

Local Open Scope M_scope.

Definition JSON_TYPE_MAP : list (string * list pyclass) :=
  [("string", [C_basestring]);
   ("number", NUMERIC_TYPES);
   ("integer", [C_int]);
   ("object", [C_dict]);
   ("array", [C_list]);
   ("null", [C_NoneType])].

Fixpoint type_map_get (name : string) (m : list (string * list pyclass))
    : option (list pyclass) :=
  match m with
  | [] => None
  | (k, cs) :: rest => if String.eqb name k then Some cs
                       else type_map_get name rest
  end.

(** [JSON_TYPE_MAP[json_type]] *)
Definition JSON_TYPE_MAP_getitem (json_type : pyobj)
    : option (list pyclass) :=
  match json_type with
  | PyStr s => type_map_get s JSON_TYPE_MAP
  | _ => None
  end.

Section WithRegex.

(** The one library function the validator depends on: what
    [re.compile] does with a pattern. *)
Variable re_compile : string -> re_outcome.

Definition unsupported_when (c : res bool) : res unit :=
  (b <- c ;; if b then Err NotImplementedError else Ok tt)%res.

Definition is_set {A} (r : res (option A)) : res bool :=
  (v <- r ;; Ok (match v with Some _ => true | None => false end))%res.

Definition _report_unsupported (schema : Schema.t) : res unit :=
  (unsupported_when (is_set (Schema.minimum schema)) ;;
   unsupported_when (is_set (Schema.maximum schema)) ;;
   unsupported_when
     (v <- Schema.minItems schema ;; Ok (negb (py_eq v (PyInt 0)))) ;;
   unsupported_when (is_set (Schema.maxItems schema)) ;;
   unsupported_when
     (b <- Schema.uniqueItems schema ;;
      Ok (negb (py_eq (PyBool b) (PyBool false)))) ;;
   unsupported_when (is_set (Schema.pattern re_compile schema)) ;;
   unsupported_when
     (v <- Schema.minLength schema ;; Ok (negb (py_eq v (PyInt 0)))) ;;
   unsupported_when (is_set (Schema.maxLength schema)) ;;
   unsupported_when (is_set (Schema.format schema)) ;;
   unsupported_when (is_set (Schema.contentEncoding schema)) ;;
   unsupported_when
     (v <- Schema.divisibleBy schema ;;
      Ok (match v with
          | None => true
          | Some d => negb (py_eq d (PyInt 1))
          end)) ;;
   unsupported_when (is_set (Schema.disallow schema)))%res.

(** *** The methods, over the recursive call

    [self_validate_no_push] stands for the recursive call
    [self._validate_no_push]; the knot is tied below. *)
Section Methods.

Variable self_validate_no_push : Schema.t -> pyobj -> M unit.

Definition _validate (schema : Schema.t) (obj : pyobj) : M unit :=
  append obj ;;
  try_finally (self_validate_no_push schema obj) pop.

(** The [for json_type in schema.type] loop; running off the end of the
    list is the [else] clause of the [for]. *)
Fixpoint _validate_type_loop (obj : pyobj) (type_list : list pyobj)
    : M unit :=
  match type_list with
  | [] => raise ValidationError
  | json_type :: rest =>
      if py_eq json_type (PyStr "any") then ret tt
      else if py_eq json_type (PyStr "boolean") then
        if negb (is_True obj) && negb (is_False obj)
        then raise ValidationError
        else ret tt
      else if isinstance json_type [C_dict] then
        s <- lift (Schema.__init__ json_type) ;;
        self_validate_no_push s obj
      else
        match JSON_TYPE_MAP_getitem json_type with
        | None => raise KeyError
        | Some classes =>
            if isinstance obj classes then ret tt
            else _validate_type_loop obj rest
        end
  end.

(** With an empty list the [else] clause formats the unbound [json_type]. *)
Definition _validate_type (schema : Schema.t) (obj : pyobj) : M unit :=
  type_list <- lift (Schema.type schema) ;;
  match type_list with
  | [] => raise UnboundLocalError
  | _ :: _ => _validate_type_loop obj type_list
  end.

Fixpoint _validate_properties_loop (obj : list (string * pyobj))
    (props : list (string * pyobj)) : M unit :=
  match props with
  | [] => ret tt
  | (prop, prop_schema_data) :: rest =>
      prop_schema <- lift (Schema.__init__ prop_schema_data) ;;
      match lookup prop obj with
      | Some v => _validate prop_schema v
      | None =>
          opt <- lift (Schema.optional prop_schema) ;;
          if negb opt then raise ValidationError else ret tt
      end ;;
      _validate_properties_loop obj rest
  end.

Definition _validate_properties (schema : Schema.t) (obj : pyobj) : M unit :=
  match obj with
  | PyDict d =>
      props <- lift (Schema.properties schema) ;;
      _validate_properties_loop d props
  | _ => raise AssertionError
  end.

(** [for prop in obj.iterkeys()] of the branch where additional
    properties are disallowed. *)
Fixpoint _unknown_property_loop (schema : Schema.t)
    (obj : list (string * pyobj)) : M unit :=
  match obj with
  | [] => ret tt
  | (prop, _) :: rest =>
      props <- lift (Schema.properties schema) ;;
      if negb (has_key prop props) then raise ValidationError
      else _unknown_property_loop schema rest
  end.

(** [for prop_value in obj.itervalues()] of the other branch. *)
Fixpoint _additional_values_loop (additional_schema : Schema.t)
    (obj : list (string * pyobj)) : M unit :=
  match obj with
  | [] => ret tt
  | (_, prop_value) :: rest =>
      _validate additional_schema prop_value ;;
      _additional_values_loop additional_schema rest
  end.

Definition _validate_additional_properties (schema : Schema.t)
    (obj : pyobj) : M unit :=
  match obj with
  | PyDict d =>
      ap <- lift (Schema.additionalProperties schema) ;;
      if is_False ap then _unknown_property_loop schema d
      else
        additional_schema <- lift (Schema.__init__ ap) ;;
        _additional_values_loop additional_schema d
  | _ => raise AssertionError
  end.

(** [schema.enum] is read twice (the test, then the loop); the accessor
    is pure, so both reads give the same list. *)
Definition _validate_enum (schema : Schema.t) (obj : pyobj) : M unit :=
  e <- lift (Schema.enum schema) ;;
  match e with
  | None => ret tt
  | Some allowed =>
      if existsb (fun allowed_value => py_eq obj allowed_value) allowed
      then ret tt
      else raise ValidationError
  end.

Fixpoint _validate_each (items_schema : Schema.t) (obj : list pyobj)
    : M unit :=
  match obj with
  | [] => ret tt
  | item :: rest =>
      _validate items_schema item ;;
      _validate_each items_schema rest
  end.

Fixpoint _validate_pairs (pairs : list (pyobj * pyobj)) : M unit :=
  match pairs with
  | [] => ret tt
  | (item, item_schema_json) :: rest =>
      item_schema <- lift (Schema.__init__ item_schema_json) ;;
      _validate item_schema item ;;
      _validate_pairs rest
  end.

Definition _validate_items (schema : Schema.t) (obj : pyobj) : M unit :=
  match obj with
  | PyList l =>
      items_schema_json <- lift (Schema.items schema) ;;
      if is_empty_dict items_schema_json then ret tt
      else
        match items_schema_json with
        | PyDict _ =>
            items_schema <- lift (Schema.__init__ items_schema_json) ;;
            _validate_each items_schema l
        | PyList ss =>
            if (List.length l <? List.length ss)%nat
            then raise ValidationError
            else
              (if negb (List.length l =? List.length ss)%nat
               then
                 ap <- lift (Schema.additionalProperties schema) ;;
                 if is_False ap then raise ValidationError else ret tt
               else ret tt) ;;
              fillvalue <- lift (Schema.additionalProperties schema) ;;
              _validate_pairs (izip_longest l ss fillvalue)
        | _ => ret tt
        end
  | _ => raise AssertionError
  end.

(** The nested-schema branch runs a fresh [Validator] whose stack is
    [self._obj_stack[:-2]]; that validator and its stack are dropped
    afterwards, so [self._obj_stack] is as before. *)
Definition _validate_requires (schema : Schema.t) (obj : pyobj) : M unit :=
  requires_json <- lift (Schema.requires schema) ;;
  if is_empty_dict requires_json then ret tt
  else
    st <- get_stack ;;
    if (List.length st <? 2)%nat then raise ValidationError
    else
      let parent_obj := nth (List.length st - 2) st PyNone in
      match requires_json with
      | PyStr name =>
          match parent_obj with
          | PyDict d =>
              if negb (has_key name d) then raise ValidationError
              else ret tt
          | _ => raise ValidationError
          end
      | PyDict _ =>
          s <- lift (Schema.__init__ requires_json) ;;
          fun self_stack =>
            let sub_stack := firstn (List.length self_stack - 2) self_stack in
            (fst (self_validate_no_push s parent_obj sub_stack), self_stack)
      | _ => ret tt
      end.

Definition _validate_no_push_body (schema : Schema.t) (obj : pyobj)
    : M unit :=
  _validate_type schema obj ;;
  _validate_requires schema obj ;;
  (if isinstance obj [C_dict] then
     append obj ;;
     _validate_properties schema obj ;;
     _validate_additional_properties schema obj ;;
     pop
   else if isinstance obj [C_list] then
     append obj ;;
     _validate_items schema obj ;;
     pop
   else
     _validate_enum schema obj) ;;
  lift (_report_unsupported schema).

End Methods.

(** [Validator._validate_no_push], with a bound on the depth of the
    nested calls. *)
Fixpoint _validate_no_push (fuel : nat) (schema : Schema.t) (obj : pyobj)
    : M unit :=
  match fuel with
  | O => fun st => (Exhausted, st)
  | S fuel' => _validate_no_push_body (_validate_no_push fuel') schema obj
  end.

(** [Validator.validate(schema, obj)]: a new validator, with an empty
    stack.  ([schema] is a [Schema] by its type, so the [ValueError] of
    the [isinstance] test has no counterpart.) *)
Definition validate (fuel : nat) (schema : Schema.t) (obj : pyobj)
    : outcome bool :=
  match fst (_validate_no_push fuel schema obj []) with
  | Returned _ => Returned true
  | Raised e => Raised e
  | Exhausted => Exhausted
  end.

End WithRegex.

End Validator.

(** ** The module-level [validate]

    [loads] is [simplejson.loads]; the schema text is parsed and wrapped
    first, the data text afterwards. *)
Section EntryPoint.

Variable re_compile : string -> re_outcome.
Variable loads : string -> res pyobj.

Definition validate (fuel : nat) (schema_text data_text : string)
    : outcome bool :=
  match (v <- loads schema_text ;; Schema.__init__ v)%res with
  | Err e => Raised e
  | Ok schema =>
      match loads data_text with
      | Err e => Raised e
      | Ok data => Validator.validate re_compile fuel schema data
      end
  end.

End EntryPoint.

(** ** Properties of computations on the stack *)

(** A computation that returns leaves the stack as it found it. *)
Definition balanced {A} (m : M A) : Prop :=
  forall st a st', m st = (Returned a, st') -> st' = st.

(** A computation that returns has popped one element. *)
Definition pops_one {A} (m : M A) : Prop :=
  forall st a st', m st = (Returned a, st') ->
    st <> [] /\ st' = removelast st.

(** [m2] agrees with [m1] wherever [m1] has a result. *)
Definition refines {A} (m1 m2 : M A) : Prop :=
  forall st o st', m1 st = (o, st') -> o <> Exhausted -> m2 st = (o, st').

(** Every object on the stack nests at most [D] deep. *)
Definition bounded (D : nat) (st : list pyobj) : Prop :=
  Forall (fun x => height x <= D) st.

(** On a bounded stack the computation has a result. *)
Definition total {A} (D : nat) (m : M A) : Prop :=
  forall st, bounded D st -> fst (m st) <> Exhausted.

(** The size of the call [_validate_no_push(schema, obj)] when no object
    at hand nests deeper than [D]: every nested call is smaller. *)
Definition call_size (D : nat) (schema : Schema.t) (obj : pyobj) : nat :=
  height (PyDict (Schema._schema schema)) * S D + height obj.

(** [item] is accepted by the nested schema [schema_json] when validated
    on the stack [st] by [_validate]. *)
Definition conforms (re_compile : string -> re_outcome) (fuel : nat)
    (st : list pyobj) (item schema_json : pyobj) : Prop :=
  exists s, Schema.__init__ schema_json = Ok s /\
    fst (Validator._validate (Validator._validate_no_push re_compile fuel)
           s item st) = Returned tt.





(** [child] is a property value of the object [obj], or an element of
    the array [obj]. *)
Definition is_child (obj child : pyobj) : Prop :=
  match obj with
  | PyDict d => exists k, In (k, child) d
  | PyList l => In child l
  | _ => False
  end.

(** The nested validations that the call on [obj] with the stack [ctx]
    can make: of [obj] itself on [ctx] (a nested schema in [type]), of a
    child of [obj] on [ctx ++ [obj; child]] (a property value, an
    element), and of [ctx[-2]] on [ctx[:-2]] (a nested schema as
    [requires]). *)
Definition nested_call (obj : pyobj) (ctx : list pyobj)
    (obj' : pyobj) (st' : list pyobj) : Prop :=
  (obj' = obj /\ st' = ctx)
  \/ (is_child obj obj' /\ st' = ctx ++ [obj; obj'])
  \/ (obj' = nth (List.length ctx - 2) ctx PyNone
      /\ st' = firstn (List.length ctx - 2) ctx).

(** ** Schemas and documents used below *)

Module Examples.

Definition any_regex (s : string) : re_outcome := Compiled.


(** [{"properties": {"a": {"type": "string"}},
      "additionalProperties": {"type": "integer"}}] *)
Definition named_and_additional : Schema.t :=
  Schema.Build
    [("properties", PyDict [("a", PyDict [("type", PyStr "string")])]);
     ("additionalProperties", PyDict [("type", PyStr "integer")])].

(** [{"properties": {"a": {"type": "string"}}}] *)
Definition named_only : Schema.t :=
  Schema.Build
    [("properties", PyDict [("a", PyDict [("type", PyStr "string")])])].

(** [{"a": "x"}] and [{"a": 1}] *)
Definition doc_a_x : pyobj := PyDict [("a", PyStr "x")].
Definition doc_a_1 : pyobj := PyDict [("a", PyInt 1)].

(** [{"type": ["boolean", "string"]}] *)
Definition boolean_or_string : Schema.t :=
  Schema.Build [("type", PyList [PyStr "boolean"; PyStr "string"])].

(** [{"type": [{"type": "integer"}, "string"]}] *)
Definition nested_integer_or_string : Schema.t :=
  Schema.Build
    [("type", PyList [PyDict [("type", PyStr "integer")]; PyStr "string"])].

(** [{"type": "string"}], [{"type": "integer"}], [{"type": "number"}] *)
Definition only_string : Schema.t := Schema.Build [("type", PyStr "string")].
Definition only_integer : Schema.t :=
  Schema.Build [("type", PyStr "integer")].
Definition only_number : Schema.t := Schema.Build [("type", PyStr "number")].

(** [{"type": ["string", {"type": "number"}]}] *)
Definition string_or_nested_number : Schema.t :=
  Schema.Build
    [("type", PyList [PyStr "string"; PyDict [("type", PyStr "number")]])].




(** [{"type": "array", "minItems": 2}] *)
Definition array_minItems_2 : Schema.t :=
  Schema.Build [("type", PyStr "array"); ("minItems", PyInt 2)].

(** [{"items": [{"type": "integer"}, {"type": "string"}]}], and the same
    with ["additionalProperties": false] *)
Definition tuple_items : pyobj :=
  PyList [PyDict [("type", PyStr "integer")];
          PyDict [("type", PyStr "string")]].
Definition tuple_open : Schema.t := Schema.Build [("items", tuple_items)].
Definition tuple_closed : Schema.t :=
  Schema.Build [("items", tuple_items);
                ("additionalProperties", PyBool false)].

(** [{"requires": {"type": "object"}}] and [{"requires": "b"}] *)
Definition requires_object : Schema.t :=
  Schema.Build [("requires", PyDict [("type", PyStr "object")])].
Definition requires_b : Schema.t :=
  Schema.Build [("requires", PyStr "b")].

(** [{"properties": {"p": {"properties": {"a":
       {"requires": {"requires": name}}}}}}]: the parent of [a] has to
    satisfy [{"requires": name}], that is, the parent of that parent has
    to have the property [name]. *)
Definition grandparent_has (name : string) : Schema.t :=
  Schema.Build
    [("properties",
      PyDict
        [("p",
          PyDict
            [("properties",
              PyDict
                [("a",
                  PyDict
                    [("requires",
                      PyDict [("requires", PyStr name)])])])])])].

(** [{"b": 1, "p": {"a": 1}}] *)
Definition family : pyobj :=
  PyDict [("b", PyInt 1); ("p", PyDict [("a", PyInt 1)])].

(** A recursive call that answers only on stacks of at most two
    entries. *)
Definition shallow (rec : Schema.t -> pyobj -> M unit)
    : Schema.t -> pyobj -> M unit :=
  fun s o st =>
    if (List.length st <=? 2)%nat then rec s o st else (Raised KeyError, st).

(** [{"enum": [1, 2, 3]}] *)
Definition enum_123 : Schema.t :=
  Schema.Build [("enum", PyList [PyInt 1; PyInt 2; PyInt 3])].

(** A parser that knows two texts. *)
Definition loads (text : string) : res pyobj :=
  if String.eqb text "[]" then Ok (PyList [])
  else if String.eqb text "{}" then Ok (PyDict [])
  else Err ValueError.

End Examples.

(** ** Notions used to state further properties *)

(** An alternative of a normalized [type] list: a nested schema or one of
    the simple type names. *)
Definition valid_alternative (t : pyobj) : bool :=
  isinstance t [C_dict] || Schema.is_simple_type_name t.

(** The simple type names of a [type] list, in order. *)
Definition simple_names (l : list pyobj) : list pyobj :=
  filter (fun t => negb (isinstance t [C_dict])) l.

(** A type name other than ["boolean"]. *)
Definition plain_name (t : pyobj) : bool :=
  match t with
  | PyStr name => negb (String.eqb name "boolean")
  | _ => false
  end.

(** [obj] is of the kind the type name [t] stands for: ["any"], or an
    instance of the classes [JSON_TYPE_MAP] gives for [t]. *)
Definition alternative_matches (obj t : pyobj) : bool :=
  py_eq t (PyStr "any")
  || match Validator.JSON_TYPE_MAP_getitem t with
     | Some classes => isinstance obj classes
     | None => false
     end.

(** The exceptions that no statement of the validator is meant to raise:
    a failed [assert], a missing key of [JSON_TYPE_MAP], a [pop] from an
    empty stack, and the ones only library calls raise. *)
Definition internal (e : exn) : bool :=
  match e with
  | AssertionError | KeyError | IndexError | ValueError | OverflowError =>
      true
  | _ => false
  end.

(** An exception that is no defect of the validator: not an internal
    one, or one that [re.compile] raised on some pattern. *)
Definition harmless (re_compile : string -> re_outcome) (e : exn) : Prop :=
  internal e = false \/ exists p, re_compile p = ReRaises e.

(** A result that is not a defect of the validator. *)
Definition external {A} (re_compile : string -> re_outcome) (r : res A)
    : Prop :=
  forall e, r = Err e -> harmless re_compile e.

(** A computation that only adds to the stack it is given and raises no
    exception that is a defect of the validator. *)
Definition tidy {A} (re_compile : string -> re_outcome) (m : M A) : Prop :=
  forall st o st', m st = (o, st') ->
    (exists ext, st' = st ++ ext)
    /\ (forall e, o = Raised e -> harmless re_compile e).

(** The same for a computation that runs after an [append] and ends with
    the matching [pop]. *)
Definition tidy_scoped {A} (re_compile : string -> re_outcome) (m : M A)
    : Prop :=
  forall st x o st', m (st ++ [x]) = (o, st') ->
    (exists ext, st' = st ++ ext)
    /\ (forall e, o = Raised e -> harmless re_compile e).

(** The keyword [key] is absent from the schema, or [null]. *)
Definition keyword_unset (s : Schema.t) (key : string) : Prop :=
  is_None (dict_get (Schema._schema s) key PyNone) = true.

(** The keyword [key] is absent or equal to [default]. *)
Definition keyword_equals (s : Schema.t) (key : string) (default : pyobj)
    : Prop :=
  py_eq (dict_get (Schema._schema s) key default) default = true.

(** ** The monad *)

Lemma bind_returned A B (m : M A) (f : A -> M B) st b st' :
  bind m f st = (Returned b, st') ->
  exists a st1, m st = (Returned a, st1) /\ f a st1 = (Returned b, st').
Proof.
  unfold bind. destruct (m st) as [[a|e|] st1]; intro H; try discriminate.
  exists a, st1. split; [reflexivity | exact H].
Qed.

Lemma lift_stack A (r : res A) st o st' :
  lift r st = (o, st') -> st' = st /\ o <> Exhausted.
Proof.
  destruct r; cbn; intro H; inversion H; split; congruence.
Qed.

Lemma balanced_ret A (a : A) : balanced (ret a).
Proof. intros st b st' H. inversion H. reflexivity. Qed.

Lemma balanced_raise A e : balanced (@raise A e).
Proof. intros st b st' H. inversion H. Qed.

Lemma balanced_lift A (r : res A) : balanced (lift r).
Proof. intros st b st' H. apply lift_stack in H. tauto. Qed.

Lemma balanced_get_stack : balanced get_stack.
Proof. intros st b st' H. inversion H. reflexivity. Qed.

Lemma balanced_bind A B (m : M A) (f : A -> M B) :
  balanced m -> (forall a, balanced (f a)) -> balanced (bind m f).
Proof.
  intros Hm Hf st b st' H.
  apply bind_returned in H. destruct H as (a & st1 & H1 & H2).
  apply Hm in H1. subst st1. exact (Hf a _ _ _ H2).
Qed.

Lemma pops_one_pop : pops_one pop.
Proof.
  intros st a st' H. unfold pop in H. destruct st; inversion H.
  split; [discriminate | reflexivity].
Qed.

Lemma pops_one_bind A B (m : M A) (f : A -> M B) :
  balanced m -> (forall a, pops_one (f a)) -> pops_one (bind m f).
Proof.
  intros Hm Hf st b st' H.
  apply bind_returned in H. destruct H as (a & st1 & H1 & H2).
  apply Hm in H1. subst st1. exact (Hf a _ _ _ H2).
Qed.

Lemma pops_one_try_finally A (m : M A) :
  balanced m -> pops_one (try_finally m pop).
Proof.
  intros Hm st a st' H. unfold try_finally in H.
  destruct (m st) as [[b|e|] st1] eqn:E; try discriminate;
    destruct (pop st1) as [[u|e'|] st2] eqn:Ep; inversion H; subst.
  apply Hm in E. subst st1. exact (pops_one_pop _ Ep).
Qed.

Lemma balanced_append A obj (m : M A) :
  pops_one m -> balanced (append obj ;; m)%M.
Proof.
  intros Hm st a st' H. unfold bind, append in H.
  apply Hm in H. destruct H as [_ H]. rewrite removelast_last in H. exact H.
Qed.

(** ** Returning restores the stack *)

Section Balanced.

Variable rec : Schema.t -> pyobj -> M unit.
Hypothesis rec_balanced : forall s o, balanced (rec s o).

Lemma _validate_balanced s o : balanced (Validator._validate rec s o).
Proof.
  apply balanced_append, pops_one_try_finally, rec_balanced.
Qed.

Lemma _validate_type_loop_balanced o l :
  balanced (Validator._validate_type_loop rec o l).
Proof.
  induction l as [|t l IH]; cbn [Validator._validate_type_loop].
  - apply balanced_raise.
  - destruct (py_eq t (PyStr "any")); [apply balanced_ret|].
    destruct (py_eq t (PyStr "boolean")).
    { destruct (negb (is_True o) && negb (is_False o));
        [apply balanced_raise | apply balanced_ret]. }
    destruct (isinstance t [C_dict]).
    { apply balanced_bind; [apply balanced_lift | intro; apply rec_balanced]. }
    destruct (Validator.JSON_TYPE_MAP_getitem t); [|apply balanced_raise].
    destruct (isinstance o l0); [apply balanced_ret | exact IH].
Qed.

Lemma _validate_type_balanced s o :
  balanced (Validator._validate_type rec s o).
Proof.
  apply balanced_bind; [apply balanced_lift|].
  intros [|t l]; [apply balanced_raise | apply _validate_type_loop_balanced].
Qed.

Lemma _validate_properties_loop_balanced d props :
  balanced (Validator._validate_properties_loop rec d props).
Proof.
  induction props as [|[prop data] props IH];
    cbn [Validator._validate_properties_loop].
  - apply balanced_ret.
  - apply balanced_bind; [apply balanced_lift | intro ps].
    apply balanced_bind; [|intro; exact IH].
    destruct (lookup prop d); [apply _validate_balanced|].
    apply balanced_bind; [apply balanced_lift | intros []];
      [apply balanced_ret | apply balanced_raise].
Qed.

Lemma _validate_properties_balanced s o :
  balanced (Validator._validate_properties rec s o).
Proof.
  destruct o; try apply balanced_raise.
  apply balanced_bind; [apply balanced_lift | intro].
  apply _validate_properties_loop_balanced.
Qed.

Lemma _unknown_property_loop_balanced s d :
  balanced (Validator._unknown_property_loop s d).
Proof.
  induction d as [|[prop v] d IH]; cbn [Validator._unknown_property_loop].
  - apply balanced_ret.
  - apply balanced_bind; [apply balanced_lift | intro props].
    destruct (negb (has_key prop props)); [apply balanced_raise | exact IH].
Qed.

Lemma _additional_values_loop_balanced s d :
  balanced (Validator._additional_values_loop rec s d).
Proof.
  induction d as [|[prop v] d IH]; cbn [Validator._additional_values_loop].
  - apply balanced_ret.
  - apply balanced_bind; [apply _validate_balanced | intro; exact IH].
Qed.

Lemma _validate_additional_properties_balanced s o :
  balanced (Validator._validate_additional_properties rec s o).
Proof.
  destruct o; try apply balanced_raise.
  apply balanced_bind; [apply balanced_lift | intro ap].
  destruct (is_False ap); [apply _unknown_property_loop_balanced|].
  apply balanced_bind; [apply balanced_lift | intro].
  apply _additional_values_loop_balanced.
Qed.

Lemma _validate_enum_balanced s o : balanced (Validator._validate_enum s o).
Proof.
  apply balanced_bind; [apply balanced_lift | intros [allowed|]];
    [|apply balanced_ret].
  destruct (existsb _ allowed); [apply balanced_ret | apply balanced_raise].
Qed.

Lemma _validate_each_balanced s l :
  balanced (Validator._validate_each rec s l).
Proof.
  induction l as [|item l IH]; cbn [Validator._validate_each].
  - apply balanced_ret.
  - apply balanced_bind; [apply _validate_balanced | intro; exact IH].
Qed.

Lemma _validate_pairs_balanced pairs :
  balanced (Validator._validate_pairs rec pairs).
Proof.
  induction pairs as [|[item sj] pairs IH]; cbn [Validator._validate_pairs].
  - apply balanced_ret.
  - apply balanced_bind; [apply balanced_lift | intro].
    apply balanced_bind; [apply _validate_balanced | intro; exact IH].
Qed.

Lemma _validate_items_balanced s o :
  balanced (Validator._validate_items rec s o).
Proof.
  destruct o; try apply balanced_raise.
  apply balanced_bind; [apply balanced_lift | intro isj].
  destruct (is_empty_dict isj); [apply balanced_ret|].
  destruct isj; try apply balanced_ret.
  - destruct (_ <? _)%nat; [apply balanced_raise|].
    apply balanced_bind.
    + destruct (negb _); [|apply balanced_ret].
      apply balanced_bind; [apply balanced_lift | intro ap].
      destruct (is_False ap); [apply balanced_raise | apply balanced_ret].
    + intro. apply balanced_bind; [apply balanced_lift | intro].
      apply _validate_pairs_balanced.
  - apply balanced_bind; [apply balanced_lift | intro].
    apply _validate_each_balanced.
Qed.

Lemma _validate_requires_balanced s o :
  balanced (Validator._validate_requires rec s o).
Proof.
  apply balanced_bind; [apply balanced_lift | intro rj].
  destruct (is_empty_dict rj); [apply balanced_ret|].
  apply balanced_bind; [apply balanced_get_stack | intro st0].
  destruct (_ <? 2)%nat; [apply balanced_raise|].
  destruct rj; try apply balanced_ret.
  - destruct (nth _ st0 PyNone); try apply balanced_raise.
    cbn. destruct (has_key s0 entries); [apply balanced_ret | apply balanced_raise].
  - apply balanced_bind; [apply balanced_lift | intro s'].
    intros st a st' H. inversion H. reflexivity.
Qed.

Lemma _validate_no_push_body_balanced re s o :
  balanced (Validator._validate_no_push_body re rec s o).
Proof.
  apply balanced_bind; [apply _validate_type_balanced | intro].
  apply balanced_bind; [apply _validate_requires_balanced | intro].
  apply balanced_bind; [|intro; apply balanced_lift].
  destruct (isinstance o [C_dict]).
  { apply balanced_append.
    apply pops_one_bind; [apply _validate_properties_balanced | intro].
    apply pops_one_bind;
      [apply _validate_additional_properties_balanced | intro].
    apply pops_one_pop. }
  destruct (isinstance o [C_list]).
  { apply balanced_append.
    apply pops_one_bind; [apply _validate_items_balanced | intro].
    apply pops_one_pop. }
  apply _validate_enum_balanced.
Qed.

End Balanced.

Lemma _validate_no_push_balanced re fuel s o :
  balanced (Validator._validate_no_push re fuel s o).
Proof.
  revert s o. induction fuel as [|fuel IH]; intros s o.
  - intros st a st' H. inversion H.
  - apply _validate_no_push_body_balanced. exact IH.
Qed.

(** ** More fuel does not change a result *)

Lemma refines_refl A (m : M A) : refines m m.
Proof. intros st o st' H _. exact H. Qed.

Lemma refines_bind A B (m1 m2 : M A) (f1 f2 : A -> M B) :
  refines m1 m2 -> (forall a, refines (f1 a) (f2 a)) ->
  refines (bind m1 f1) (bind m2 f2).
Proof.
  intros Hm Hf st o st' H Ho. unfold bind in *.
  destruct (m1 st) as [[a|e|] st1] eqn:E.
  - rewrite (Hm _ _ _ E) by discriminate. apply Hf; assumption.
  - rewrite (Hm _ _ _ E) by discriminate. exact H.
  - inversion H. congruence.
Qed.

Lemma refines_try_finally A (m1 m2 : M A) final :
  refines m1 m2 -> refines (try_finally m1 final) (try_finally m2 final).
Proof.
  intros Hm st o st' H Ho. unfold try_finally in *.
  destruct (m1 st) as [[a|e|] st1] eqn:E.
  - rewrite (Hm _ _ _ E) by discriminate. exact H.
  - rewrite (Hm _ _ _ E) by discriminate. exact H.
  - inversion H. congruence.
Qed.

Ltac refines_steps :=
  repeat first
    [ assumption
    | apply refines_refl
    | match goal with
      | |- refines (bind _ _) (bind _ _) => apply refines_bind; [|intro]
      | |- refines (try_finally _ _) (try_finally _ _) =>
          apply refines_try_finally
      | |- refines (match ?x with _ => _ end) _ => destruct x
      end ].

Section Refines.

Variables rec1 rec2 : Schema.t -> pyobj -> M unit.
Hypothesis rec_refines : forall s o, refines (rec1 s o) (rec2 s o).

Lemma _validate_refines s o :
  refines (Validator._validate rec1 s o) (Validator._validate rec2 s o).
Proof. unfold Validator._validate. refines_steps. apply rec_refines. Qed.

Lemma _validate_type_loop_refines o l :
  refines (Validator._validate_type_loop rec1 o l)
          (Validator._validate_type_loop rec2 o l).
Proof.
  induction l as [|t l IH]; cbn [Validator._validate_type_loop];
    refines_steps.
  apply rec_refines.
Qed.

Lemma _validate_properties_loop_refines d props :
  refines (Validator._validate_properties_loop rec1 d props)
          (Validator._validate_properties_loop rec2 d props).
Proof.
  induction props as [|[prop data] props IH];
    cbn [Validator._validate_properties_loop]; refines_steps.
  apply _validate_refines.
Qed.

Lemma _additional_values_loop_refines s d :
  refines (Validator._additional_values_loop rec1 s d)
          (Validator._additional_values_loop rec2 s d).
Proof.
  induction d as [|[prop v] d IH]; cbn [Validator._additional_values_loop];
    refines_steps.
  apply _validate_refines.
Qed.

Lemma _validate_each_refines s l :
  refines (Validator._validate_each rec1 s l)
          (Validator._validate_each rec2 s l).
Proof.
  induction l as [|item l IH]; cbn [Validator._validate_each];
    refines_steps.
  apply _validate_refines.
Qed.

Lemma _validate_pairs_refines pairs :
  refines (Validator._validate_pairs rec1 pairs)
          (Validator._validate_pairs rec2 pairs).
Proof.
  induction pairs as [|[item sj] pairs IH]; cbn [Validator._validate_pairs];
    refines_steps.
  apply _validate_refines.
Qed.

Lemma _validate_requires_refines s o :
  refines (Validator._validate_requires rec1 s o)
          (Validator._validate_requires rec2 s o).
Proof.
  unfold Validator._validate_requires. refines_steps.
  intros st r st' H Hr.
  match type of H with
  | (fst (rec1 ?s' ?p ?sub), _) = _ =>
      destruct (rec1 s' p sub) as [r1 st1] eqn:E
  end.
  cbn in H. inversion H; subst.
  rewrite (rec_refines E Hr). reflexivity.
Qed.

Lemma _validate_no_push_body_refines re s o :
  refines (Validator._validate_no_push_body re rec1 s o)
          (Validator._validate_no_push_body re rec2 s o).
Proof.
  unfold Validator._validate_no_push_body.
  apply refines_bind; [|intro].
  { unfold Validator._validate_type. refines_steps.
    apply _validate_type_loop_refines. }
  apply refines_bind; [apply _validate_requires_refines | intro].
  apply refines_bind; [|intro; apply refines_refl].
  destruct (isinstance o [C_dict]); [|destruct (isinstance o [C_list])].
  - apply refines_bind; [apply refines_refl | intro].
    apply refines_bind; [|intro].
    { unfold Validator._validate_properties. refines_steps.
      apply _validate_properties_loop_refines. }
    apply refines_bind; [|intro; apply refines_refl].
    unfold Validator._validate_additional_properties. refines_steps.
    apply _additional_values_loop_refines.
  - apply refines_bind; [apply refines_refl | intro].
    apply refines_bind; [|intro; apply refines_refl].
    unfold Validator._validate_items. refines_steps.
    + apply _validate_pairs_refines.
    + apply _validate_each_refines.
  - apply refines_refl.
Qed.

End Refines.

Lemma _validate_no_push_step re fuel s o :
  refines (Validator._validate_no_push re fuel s o)
          (Validator._validate_no_push re (S fuel) s o).
Proof.
  revert s o. induction fuel as [|fuel IH]; intros s o.
  - intros st r st' H Hr. inversion H. congruence.
  - apply _validate_no_push_body_refines. exact IH.
Qed.

(** A result obtained with some fuel is the result with any larger fuel. *)
Lemma fuel_monotone re n m s o st r st' :
  n <= m ->
  Validator._validate_no_push re n s o st = (r, st') ->
  r <> Exhausted ->
  Validator._validate_no_push re m s o st = (r, st').
Proof.
  induction 1 as [|m Hle IH]; intros H Hr; [exact H|].
  apply _validate_no_push_step; auto.
Qed.

(** ** Nesting depth of the parts of a value *)

Lemma fold_max_init (A : Type) (f : A -> nat) a l :
  a <= fold_right (fun y acc => Nat.max (f y) acc) a l.
Proof. induction l; cbn; lia. Qed.

Lemma fold_max_In (A : Type) (f : A -> nat) a l x :
  In x l -> f x <= fold_right (fun y acc => Nat.max (f y) acc) a l.
Proof.
  induction l as [|y l IH]; cbn; [tauto|].
  intros [->|H]; [lia | specialize (IH H); lia].
Qed.

Lemma height_list_In x l : In x l -> height x < height (PyList l).
Proof.
  destruct l as [|y l]; [intros []|].
  cbn [height]. intros [->|H].
  - pose proof (fold_max_init height (height x) l). lia.
  - pose proof (fold_max_In height (height y) l x H). lia.
Qed.

Lemma fold_max_dict_init a (d : list (string * pyobj)) :
  a <= fold_right
         (fun kv acc => let '(_, y) := kv in Nat.max (height y) acc) a d.
Proof. induction d as [|[k y] d IH]; cbn; lia. Qed.

Lemma fold_max_dict_In a (d : list (string * pyobj)) k x :
  In (k, x) d ->
  height x <= fold_right
                (fun kv acc => let '(_, y) := kv in Nat.max (height y) acc)
                a d.
Proof.
  induction d as [|[k0 y] d IH]; cbn; [tauto|].
  intros [H|H]; [inversion H; lia | specialize (IH H); lia].
Qed.

Lemma height_dict_In k x d : In (k, x) d -> height x < height (PyDict d).
Proof.
  destruct d as [|[k0 y] d]; [intros []|].
  cbn [height]. intros [H|H].
  - inversion H; subst.
    pose proof (fold_max_dict_init (height x) d). lia.
  - pose proof (fold_max_dict_In (height y) d k x H). lia.
Qed.

Lemma lookup_In k d v : lookup k d = Some v -> exists k', In (k', v) d.
Proof.
  induction d as [|[k0 y] d IH]; cbn; [discriminate|].
  destruct (String.eqb k k0).
  - intro H; inversion H; subst. exists k0. now left.
  - intro H. destruct (IH H) as [k' Hk]. exists k'. now right.
Qed.

Lemma height_lookup k d v :
  lookup k d = Some v -> height v < height (PyDict d).
Proof.
  intro H. destruct (lookup_In _ _ H) as [k' Hk].
  exact (height_dict_In _ _ _ Hk).
Qed.

Lemma height_dict_get d k default :
  height default = 0 -> height (dict_get d k default) <= height (PyDict d).
Proof.
  intro Hd. unfold dict_get. destruct (lookup k d) eqn:E.
  - apply height_lookup in E. lia.
  - lia.
Qed.

(** ** Nested schemas are smaller than the schema that holds them *)

Lemma Schema_init_dict v s :
  Schema.__init__ v = Ok s -> v = PyDict (Schema._schema s).
Proof. destruct v; cbn; intro H; inversion H. reflexivity. Qed.

Lemma type_nested_height s l d' :
  Schema.type s = Ok l -> In (PyDict d') l ->
  height (PyDict d') < height (PyDict (Schema._schema s)).
Proof.
  unfold Schema.type, dict_get.
  destruct (lookup "type" (Schema._schema s)) as [v|] eqn:E.
  - apply height_lookup in E.
    destruct (negb _); [discriminate|].
    destruct (Schema.check_type_list [] (Schema.as_list v));
      cbn; intro H; inversion H; subst l; clear H.
    destruct v; cbn [Schema.as_list In]; try (intros [H|[]]; discriminate).
    + intro H. apply height_list_In in H. exact (Nat.lt_trans _ _ _ H E).
    + intros [H|[]]. inversion H; subst. exact E.
  - cbn. intro H; inversion H; subst l. intros [H'|[]]. discriminate.
Qed.

Lemma properties_nested_height s props p d' :
  Schema.properties s = Ok props -> In (p, PyDict d') props ->
  height (PyDict d') < height (PyDict (Schema._schema s)).
Proof.
  unfold Schema.properties, dict_get.
  destruct (lookup "properties" (Schema._schema s)) as [v|] eqn:E.
  - apply height_lookup in E.
    destruct v; intro H; inversion H; subst.
    intro Hin. apply height_dict_In in Hin. lia.
  - intro H; inversion H; subst. intros [].
Qed.

Lemma additionalProperties_height s ap :
  Schema.additionalProperties s = Ok ap ->
  height ap <= height (PyDict (Schema._schema s)).
Proof.
  unfold Schema.additionalProperties.
  destruct (_ && _); intro H; inversion H.
  apply height_dict_get. reflexivity.
Qed.

Lemma items_height s v :
  Schema.items s = Ok v -> is_empty_dict v = false ->
  height v < height (PyDict (Schema._schema s)).
Proof.
  unfold Schema.items, dict_get.
  destruct (lookup "items" (Schema._schema s)) as [w|] eqn:E.
  - apply height_lookup in E.
    destruct (negb _); intro H; inversion H; subst. intros _. exact E.
  - cbn. intro H; inversion H; subst. discriminate.
Qed.

Lemma requires_height s v :
  Schema.requires s = Ok v -> is_empty_dict v = false ->
  height v < height (PyDict (Schema._schema s)).
Proof.
  unfold Schema.requires, dict_get.
  destruct (lookup "requires" (Schema._schema s)) as [w|] eqn:E.
  - apply height_lookup in E.
    destruct (negb _); intro H; inversion H; subst. intros _. exact E.
  - cbn. intro H; inversion H; subst. discriminate.
Qed.

Lemma izip_longest_In l ss fill x y :
  List.length ss <= List.length l ->
  In (x, y) (izip_longest l ss fill) ->
  In x l /\ (In y ss \/ y = fill).
Proof.
  revert ss. induction l as [|a l IH]; intros [|b ss] Hlen; cbn in *;
    try tauto; try lia.
  - intros [H|H].
    + inversion H; subst. tauto.
    + destruct (IH [] (Nat.le_0_l _) H) as [H1 H2]. tauto.
  - intros [H|H].
    + inversion H; subst. tauto.
    + destruct (IH ss (le_S_n _ _ Hlen) H) as [H1 H2]. tauto.
Qed.

(** ** Every call has a result, given enough fuel *)

Lemma total_ret A D (a : A) : total D (ret a).
Proof. intros st _. discriminate. Qed.

Lemma total_raise A D e : total D (@raise A e).
Proof. intros st _. discriminate. Qed.

Lemma total_lift A D (r : res A) : total D (lift r).
Proof. destruct r; [apply total_ret | apply total_raise]. Qed.

Lemma total_bind A B D (m : M A) (f : A -> M B) :
  total D m -> balanced m -> (forall a, total D (f a)) -> total D (bind m f).
Proof.
  intros Hm Hb Hf st Hst. unfold bind.
  specialize (Hm st Hst).
  destruct (m st) as [[a|e|] st1] eqn:E; cbn in *; try congruence.
  apply Hb in E. subst st1. apply Hf, Hst.
Qed.

Lemma total_lift_bind A B D (r : res A) (f : A -> M B) :
  (forall a, r = Ok a -> total D (f a)) -> total D (bind (lift r) f).
Proof.
  intros Hf st Hst. destruct r as [a|e]; cbn; [|discriminate].
  apply Hf; [reflexivity | exact Hst].
Qed.

Lemma total_pop D : total D pop.
Proof. intros [|x st] _; discriminate. Qed.

Lemma bounded_app D st x : bounded D st -> height x <= D -> bounded D (st ++ [x]).
Proof.
  intros Hst Hx. apply Forall_app. split; [exact Hst|].
  constructor; [exact Hx | constructor].
Qed.

Lemma total_append A D obj (m : M A) :
  height obj <= D -> total D m -> total D (append obj ;; m)%M.
Proof.
  intros Ho Hm st Hst. unfold bind, append. apply Hm.
  apply bounded_app; assumption.
Qed.

Lemma total_try_finally_pop A D (m : M A) :
  total D m -> total D (try_finally m pop).
Proof.
  intros Hm st Hst. specialize (Hm st Hst). unfold try_finally.
  destruct (m st) as [[a|e|] st1]; cbn in *; try congruence;
    destruct st1; cbn; discriminate.
Qed.

Section Total.

Variable D : nat.
Variable rec : Schema.t -> pyobj -> M unit.
Variable schema : Schema.t.
Variable obj : pyobj.

Hypothesis obj_bounded : height obj <= D.
Hypothesis rec_balanced : forall s o, balanced (rec s o).

(** The recursive call has a result on a smaller schema, and on a schema
    that is not larger when the object is smaller. *)
Hypothesis rec_total : forall s o,
  height o <= D ->
  height (PyDict (Schema._schema s)) < height (PyDict (Schema._schema schema))
  \/ (height (PyDict (Schema._schema s))
        <= height (PyDict (Schema._schema schema))
      /\ height o < height obj) ->
  total D (rec s o).

Lemma _validate_total s o :
  height o <= D ->
  height (PyDict (Schema._schema s)) < height (PyDict (Schema._schema schema))
  \/ (height (PyDict (Schema._schema s))
        <= height (PyDict (Schema._schema schema))
      /\ height o < height obj) ->
  total D (Validator._validate rec s o).
Proof.
  intros Ho Hs. apply total_append; [exact Ho|].
  apply total_try_finally_pop, rec_total; assumption.
Qed.

Lemma _validate_type_loop_total l :
  (forall d', In (PyDict d') l ->
     height (PyDict d') < height (PyDict (Schema._schema schema))) ->
  total D (Validator._validate_type_loop rec obj l).
Proof.
  induction l as [|t l IH]; intro Hl; cbn [Validator._validate_type_loop].
  - apply total_raise.
  - destruct (py_eq t (PyStr "any")); [apply total_ret|].
    destruct (py_eq t (PyStr "boolean")).
    { destruct (negb (is_True obj) && negb (is_False obj));
        [apply total_raise | apply total_ret]. }
    destruct (isinstance t [C_dict]).
    { apply total_lift_bind. intros s E.
      apply rec_total; [exact obj_bounded|]. left.
      apply Schema_init_dict in E. subst t. apply Hl. now left. }
    destruct (Validator.JSON_TYPE_MAP_getitem t) as [cs|]; [|apply total_raise].
    destruct (isinstance obj cs); [apply total_ret|].
    apply IH. intros d' Hd. apply Hl. now right.
Qed.

Lemma _validate_type_total : total D (Validator._validate_type rec schema obj).
Proof.
  apply total_lift_bind. intros l E.
  destruct l as [|t l]; [apply total_raise|].
  apply _validate_type_loop_total. intros d'. apply type_nested_height, E.
Qed.

Lemma _validate_properties_loop_total d props :
  (forall k v, lookup k d = Some v -> height v < height obj) ->
  (forall p d', In (p, PyDict d') props ->
     height (PyDict d') < height (PyDict (Schema._schema schema))) ->
  total D (Validator._validate_properties_loop rec d props).
Proof.
  intros Hd. induction props as [|[prop data] props IH]; intro Hp;
    cbn [Validator._validate_properties_loop].
  - apply total_ret.
  - apply total_lift_bind. intros ps E.
    apply Schema_init_dict in E. subst data.
    assert (Hps : height (PyDict (Schema._schema ps))
                  < height (PyDict (Schema._schema schema)))
      by (eapply Hp; left; reflexivity).
    apply total_bind.
    + destruct (lookup prop d) as [v|] eqn:El.
      * apply Hd in El. apply _validate_total; [lia | now left].
      * apply total_lift_bind. intros [] _;
          [apply total_ret | apply total_raise].
    + destruct (lookup prop d) as [v|].
      * apply _validate_balanced, rec_balanced.
      * apply balanced_bind; [apply balanced_lift | intros []];
          [apply balanced_ret | apply balanced_raise].
    + intros _. apply IH. intros p d' Hin. eapply Hp. right. exact Hin.
Qed.

Lemma _validate_properties_total :
  total D (Validator._validate_properties rec schema obj).
Proof.
  unfold Validator._validate_properties.
  case_eq obj; intros; try apply total_raise.
  apply total_lift_bind. intros props E.
  apply _validate_properties_loop_total.
  - intros k v. rewrite H. apply height_lookup.
  - intros p d'. apply properties_nested_height, E.
Qed.

Lemma _unknown_property_loop_total d :
  total D (Validator._unknown_property_loop schema d).
Proof.
  induction d as [|[prop v] d IH]; cbn [Validator._unknown_property_loop].
  - apply total_ret.
  - apply total_lift_bind. intros props _.
    destruct (negb (has_key prop props)); [apply total_raise | exact IH].
Qed.

Lemma _additional_values_loop_total s d :
  height (PyDict (Schema._schema s))
    <= height (PyDict (Schema._schema schema)) ->
  (forall k v, In (k, v) d -> height v < height obj) ->
  total D (Validator._additional_values_loop rec s d).
Proof.
  intros Hs. induction d as [|[prop v] d IH]; intro Hd;
    cbn [Validator._additional_values_loop].
  - apply total_ret.
  - assert (Hv : height v < height obj) by (eapply Hd; left; reflexivity).
    apply total_bind.
    + apply _validate_total; [lia | right; split; assumption].
    + apply _validate_balanced, rec_balanced.
    + intros _. apply IH. intros k w Hin. eapply Hd. right. exact Hin.
Qed.

Lemma _validate_additional_properties_total :
  total D (Validator._validate_additional_properties rec schema obj).
Proof.
  unfold Validator._validate_additional_properties.
  case_eq obj; intros; try apply total_raise.
  apply total_lift_bind. intros ap E.
  destruct (is_False ap); [apply _unknown_property_loop_total|].
  apply total_lift_bind. intros s Es.
  apply Schema_init_dict in Es. subst ap.
  apply _additional_values_loop_total.
  - apply additionalProperties_height, E.
  - intros k v. rewrite H. apply height_dict_In.
Qed.

Lemma _validate_enum_total o : total D (Validator._validate_enum schema o).
Proof.
  apply total_lift_bind. intros [allowed|] _; [|apply total_ret].
  destruct (existsb _ allowed); [apply total_ret | apply total_raise].
Qed.

Lemma _validate_each_total s l :
  height (PyDict (Schema._schema s))
    < height (PyDict (Schema._schema schema)) ->
  (forall x, In x l -> height x <= D) ->
  total D (Validator._validate_each rec s l).
Proof.
  intros Hs. induction l as [|item l IH]; intro Hl;
    cbn [Validator._validate_each].
  - apply total_ret.
  - apply total_bind.
    + apply _validate_total; [apply Hl; now left | now left].
    + apply _validate_balanced, rec_balanced.
    + intros _. apply IH. intros x Hin. apply Hl. now right.
Qed.

Lemma _validate_pairs_total pairs :
  (forall x y, In (x, y) pairs ->
     height x < height obj
     /\ height y <= height (PyDict (Schema._schema schema))) ->
  total D (Validator._validate_pairs rec pairs).
Proof.
  induction pairs as [|[item sj] pairs IH]; intro Hp;
    cbn [Validator._validate_pairs].
  - apply total_ret.
  - destruct (Hp item sj (or_introl eq_refl)) as [Hi Hs].
    apply total_lift_bind. intros s E.
    apply Schema_init_dict in E. subst sj.
    apply total_bind.
    + apply _validate_total; [lia | right; split; assumption].
    + apply _validate_balanced, rec_balanced.
    + intros _. apply IH. intros x y Hin. apply Hp. now right.
Qed.

Lemma _validate_items_total :
  total D (Validator._validate_items rec schema obj).
Proof.
  unfold Validator._validate_items.
  case_eq obj; try (intros; apply total_raise). intros l Eo.
  apply total_lift_bind. intros isj E.
  destruct (is_empty_dict isj) eqn:Ee; [apply total_ret|].
  pose proof (items_height _ E Ee) as Hh.
  destruct isj as [| | | | | |ss|d']; try apply total_ret.
  - destruct (List.length l <? List.length ss)%nat eqn:Elen;
      [apply total_raise|].
    apply Nat.ltb_ge in Elen.
    apply total_bind.
    + destruct (negb _); [|apply total_ret].
      apply total_lift_bind. intros ap _.
      destruct (is_False ap); [apply total_raise | apply total_ret].
    + destruct (negb _); [|apply balanced_ret].
      apply balanced_bind; [apply balanced_lift | intro ap].
      destruct (is_False ap); [apply balanced_raise | apply balanced_ret].
    + intros _. apply total_lift_bind. intros fillvalue Ef.
      apply _validate_pairs_total. intros x y Hin.
      apply izip_longest_In in Hin; [|exact Elen].
      destruct Hin as [Hx Hy]. split.
      * rewrite Eo. apply height_list_In, Hx.
      * destruct Hy as [Hy| ->].
        -- apply height_list_In in Hy. lia.
        -- apply additionalProperties_height, Ef.
  - apply total_lift_bind. intros s Es.
    apply Schema_init_dict in Es. inversion Es; subst d'.
    apply _validate_each_total; [exact Hh|].
    intros x Hin. apply height_list_In in Hin. rewrite <- Eo in Hin. lia.
Qed.

Lemma nth_bounded st n :
  bounded D st -> height (nth n st PyNone) <= D.
Proof.
  intro Hst. destruct (nth_in_or_default n st PyNone) as [H|H].
  - unfold bounded in Hst. rewrite Forall_forall in Hst. apply Hst, H.
  - rewrite H. cbn. lia.
Qed.

Lemma firstn_bounded st n : bounded D st -> bounded D (firstn n st).
Proof.
  unfold bounded. revert n.
  induction st as [|x st IH]; intros [|n] Hst; cbn; try constructor.
  - inversion Hst; assumption.
  - inversion Hst; subst. apply IH. assumption.
Qed.

Lemma _validate_requires_total :
  total D (Validator._validate_requires rec schema obj).
Proof.
  unfold Validator._validate_requires.
  apply total_lift_bind. intros rj E.
  destruct (is_empty_dict rj) eqn:Ee; [apply total_ret|].
  pose proof (requires_height _ E Ee) as Hh.
  intros st Hst. unfold bind at 1, get_stack.
  destruct (List.length st <? 2)%nat; [discriminate|].
  destruct rj as [| | | | |name| |d']; try discriminate.
  - destruct (nth _ st PyNone); try discriminate.
    cbn. destruct (has_key name entries); discriminate.
  - cbn. apply rec_total.
    + apply nth_bounded, Hst.
    + now left.
    + apply firstn_bounded, Hst.
Qed.

Lemma _validate_no_push_body_total re :
  total D (Validator._validate_no_push_body re rec schema obj).
Proof.
  unfold Validator._validate_no_push_body.
  apply total_bind;
    [apply _validate_type_total
    | apply _validate_type_balanced, rec_balanced | intros _].
  apply total_bind;
    [apply _validate_requires_total
    | apply _validate_requires_balanced | intros _].
  apply total_bind; [| |intros _; apply total_lift].
  - destruct (isinstance obj [C_dict]); [|destruct (isinstance obj [C_list])].
    + apply total_append; [exact obj_bounded|].
      apply total_bind;
        [apply _validate_properties_total
        | apply _validate_properties_balanced, rec_balanced | intros _].
      apply total_bind;
        [apply _validate_additional_properties_total
        | apply _validate_additional_properties_balanced, rec_balanced
        | intros _].
      apply total_pop.
    + apply total_append; [exact obj_bounded|].
      apply total_bind;
        [apply _validate_items_total
        | apply _validate_items_balanced, rec_balanced | intros _].
      apply total_pop.
    + apply _validate_enum_total.
  - destruct (isinstance obj [C_dict]); [|destruct (isinstance obj [C_list])].
    + apply balanced_append.
      apply pops_one_bind;
        [apply _validate_properties_balanced, rec_balanced | intro].
      apply pops_one_bind;
        [apply _validate_additional_properties_balanced, rec_balanced
        | intro].
      apply pops_one_pop.
    + apply balanced_append.
      apply pops_one_bind;
        [apply _validate_items_balanced, rec_balanced | intro].
      apply pops_one_pop.
    + apply _validate_enum_balanced.
Qed.

End Total.

(** With fuel above the size of the call, [_validate_no_push] returns or
    raises. *)
Lemma _validate_no_push_total re D fuel s o :
  height o <= D ->
  call_size D s o < fuel ->
  total D (Validator._validate_no_push re fuel s o).
Proof.
  revert s o. induction fuel as [|fuel IH]; intros s o Ho Hf; [lia|].
  cbn [Validator._validate_no_push].
  apply _validate_no_push_body_total.
  - exact Ho.
  - intros. apply _validate_no_push_balanced.
  - intros s' o' Ho' Hlt. apply IH; [exact Ho'|].
    unfold call_size in *. destruct Hlt as [Hlt|[Hle Hlt]]; nia.
Qed.

(** ** Results of [Validator.validate] *)

Lemma validate_fuel_monotone re n m s o r :
  n <= m ->
  Validator.validate re n s o = r -> r <> Exhausted ->
  Validator.validate re m s o = r.
Proof.
  unfold Validator.validate. intros Hle H Hr.
  destruct (Validator._validate_no_push re n s o []) as [x st'] eqn:E.
  assert (Hx : x <> Exhausted).
  { intro Hx. subst x. cbn in H. congruence. }
  rewrite (@fuel_monotone re n m s o [] x st' Hle E Hx). exact H.
Qed.

(** [Validator.validate] returns or raises once the fuel exceeds the size
    of the call. *)
Lemma validate_total re fuel s o :
  call_size (height o) s o < fuel ->
  Validator.validate re fuel s o <> Exhausted.
Proof.
  intro Hf. unfold Validator.validate.
  pose proof (@_validate_no_push_total re (height o) fuel s o
                (Nat.le_refl _) Hf [] (Forall_nil _)) as H.
  destruct (fst _); congruence.
Qed.

(** ** Running a sequence *)

Lemma bind_returns A B (m : M A) (f : A -> M B) st a st1 :
  m st = (Returned a, st1) -> bind m f st = f a st1.
Proof. intro H. unfold bind. rewrite H. reflexivity. Qed.

Lemma bind_then A B (m : M A) (f : A -> M B) st a st1 r :
  m st = (Returned a, st1) -> f a st1 = r -> bind m f st = r.
Proof. intros H <-. apply bind_returns, H. Qed.

Lemma bind_raises A B (m : M A) (f : A -> M B) st e st1 :
  m st = (Raised e, st1) -> bind m f st = (Raised e, st1).
Proof. intro H. unfold bind. rewrite H. reflexivity. Qed.

Lemma pop_append st (x : pyobj) : pop (st ++ [x]) = (Returned tt, st).
Proof.
  unfold pop. destruct (st ++ [x]) eqn:E; [destruct st; discriminate|].
  rewrite <- E, removelast_last. reflexivity.
Qed.

(** [_validate] when the nested call returns. *)
Lemma _validate_returns rec s o st :
  rec s o (st ++ [o]) = (Returned tt, st ++ [o]) ->
  Validator._validate rec s o st = (Returned tt, st).
Proof.
  intro H. unfold Validator._validate, bind, append, try_finally.
  rewrite H, pop_append. reflexivity.
Qed.

(** ** The empty schema accepts every value *)

Lemma _additional_values_loop_returns rec s d st :
  (forall k v, In (k, v) d -> rec s v (st ++ [v]) = (Returned tt, st ++ [v])) ->
  Validator._additional_values_loop rec s d st = (Returned tt, st).
Proof.
  induction d as [|[k v] d IH]; intro H; cbn; [reflexivity|].
  erewrite bind_returns
    by (apply _validate_returns, (H k v); left; reflexivity).
  apply IH. intros k' v' Hin. apply (H k' v'). now right.
Qed.

Lemma empty_schema_accepts re fuel o st :
  height o < fuel ->
  Validator._validate_no_push re fuel (Schema.Build []) o st
  = (Returned tt, st).
Proof.
  revert o st. induction fuel as [|fuel IH]; intros o st Hf; [lia|].
  cbn [Validator._validate_no_push].
  unfold Validator._validate_no_push_body.
  erewrite bind_returns by reflexivity.
  erewrite bind_returns by reflexivity.
  destruct o as [| b | z | z | q | s | l | d];
    try reflexivity.
  - (* list *)
    eapply bind_then.
    + cbn [isinstance existsb instance_of orb].
      erewrite bind_returns by reflexivity.
      erewrite bind_returns by reflexivity.
      apply pop_append.
    + reflexivity.
  - (* dict *)
    eapply bind_then; [|reflexivity].
    cbn [isinstance existsb instance_of orb].
    erewrite bind_returns by reflexivity.
    erewrite bind_returns by reflexivity.
    eapply bind_then; [|apply pop_append].
    unfold Validator._validate_additional_properties.
    erewrite bind_returns by reflexivity.
    cbn [is_False dict_get lookup Schema._schema].
    erewrite bind_returns by reflexivity.
    apply _additional_values_loop_returns.
    intros k v Hin. apply IH.
    apply height_dict_In in Hin. lia.
Qed.

(** ** Evaluating the validator on closed inputs *)

(** A result computed with the fuel [n] is the result with [n + fuel]. *)
Lemma validate_at re n fuel s o r :
  Validator.validate re n s o = r -> r <> Exhausted ->
  Validator.validate re (n + fuel) s o = r.
Proof. apply validate_fuel_monotone. lia. Qed.

Lemma _validate_no_push_at re n fuel s o st r st' :
  Validator._validate_no_push re n s o st = (r, st') -> r <> Exhausted ->
  Validator._validate_no_push re (n + fuel) s o st = (r, st').
Proof. apply fuel_monotone. lia. Qed.

Ltac evaluate_validate :=
  first [ apply validate_at | apply _validate_no_push_at ];
  [ vm_compute; reflexivity | discriminate ].

(** ** Additional properties *)

(** C1 (code bug).  The claim: a value covered by a named property schema
    is never checked against the [additionalProperties] schema.  The code
    loops over all of [obj.itervalues()]: the document [{"a": "x"}] is
    accepted by [{"properties": {"a": {"type": "string"}}}], and rejected
    with a [ValidationError] once
    ["additionalProperties": {"type": "integer"}] is added, because ["x"]
    is then validated against [{"type": "integer"}] as well. *)
Theorem C1_named_property_checked_as_additional re fuel :
  Validator.validate re (2 + fuel) Examples.named_only Examples.doc_a_x
  = Returned true
  /\ Validator.validate re (2 + fuel) Examples.named_and_additional
       Examples.doc_a_x
     = Raised ValidationError.
Proof. split; evaluate_validate. Qed.

(** ** The type check *)

(** C2 (code bug).  The claim: an alternative that does not match never
    aborts the type check while a later one would match.  In the code a
    ["boolean"] alternative that does not match raises at once, and so
    does a nested schema that rejects the value: the string ["x"] is
    rejected under [["boolean", "string"]] and under
    [[{"type": "integer"}, "string"]], although ["string"] alone accepts
    it. *)
Theorem C2_failed_alternative_aborts re fuel :
  Validator.validate re (2 + fuel) Examples.boolean_or_string (PyStr "x")
  = Raised ValidationError
  /\ Validator.validate re (2 + fuel) Examples.nested_integer_or_string
       (PyStr "x")
     = Raised ValidationError
  /\ Validator.validate re (2 + fuel) Examples.only_string (PyStr "x")
     = Returned true.
Proof. repeat split; evaluate_validate. Qed.

(** C3 (code bug).  The claim: [true] and [false] never match ["number"]
    or ["integer"], and [{"type": ["string", {"type": "number"}]}] rejects
    [true].  In the code a boolean is an instance of [int], so it matches
    both names, and that schema accepts [true]; it does accept ["x"] and
    [5] and reject [null]. *)
Theorem C3_true_matches_number re fuel :
  (forall b, isinstance (PyBool b) NUMERIC_TYPES = true
             /\ isinstance (PyBool b) [C_int] = true)
  /\ Validator.validate re (2 + fuel) Examples.only_integer (PyBool true)
     = Returned true
  /\ Validator.validate re (2 + fuel) Examples.only_number (PyBool false)
     = Returned true
  /\ Validator.validate re (2 + fuel) Examples.string_or_nested_number
       (PyBool true)
     = Returned true
  /\ Validator.validate re (2 + fuel) Examples.string_or_nested_number
       (PyStr "x")
     = Returned true
  /\ Validator.validate re (2 + fuel) Examples.string_or_nested_number
       (PyInt 5)
     = Returned true
  /\ Validator.validate re (2 + fuel) Examples.string_or_nested_number
       PyNone
     = Raised ValidationError.
Proof.
  split; [intros []; split; reflexivity|].
  repeat split; evaluate_validate.
Qed.

(** ** The object stack after an exception *)

(** C8 (code bug).  The claim: after a validation call raises, the stack
    is as before the call.  [_validate] pops in a [finally], but
    [_validate_no_push] appends a container and pops it only when the
    checks in between return: on [{"a": 1}] against
    [{"properties": {"a": {"type": "string"}}}] both calls raise a
    [ValidationError] and leave the document on a stack that was empty. *)
Theorem C8_stack_not_restored_after_raise re fuel :
  Validator._validate_no_push re (2 + fuel) Examples.named_only
    Examples.doc_a_1 []
  = (Raised ValidationError, [Examples.doc_a_1])
  /\ Validator._validate (Validator._validate_no_push re (2 + fuel))
       Examples.named_only Examples.doc_a_1 []
     = (Raised ValidationError, [Examples.doc_a_1]).
Proof.
  split; [evaluate_validate|].
  unfold Validator._validate, bind, append, try_finally.
  rewrite (@_validate_no_push_at re 2 fuel Examples.named_only
             Examples.doc_a_1 ([] ++ [Examples.doc_a_1])
             (Raised ValidationError)
             [Examples.doc_a_1; Examples.doc_a_1]);
    [reflexivity | vm_compute; reflexivity | discriminate].
Qed.

(** ** Enumerations *)

(** C9.  Enum membership is [obj == allowed_value], and [True == 1]:
    [{"enum": [1, 2, 3]}] (type ["any"] by default) accepts [true], as it
    accepts [2]; it rejects [4] and [false]. *)
Theorem C9_enum_true_equals_1 re fuel :
  py_eq (PyBool true) (PyInt 1) = true
  /\ Validator.validate re (1 + fuel) Examples.enum_123 (PyBool true)
     = Returned true
  /\ Validator.validate re (1 + fuel) Examples.enum_123 (PyInt 2)
     = Returned true
  /\ Validator.validate re (1 + fuel) Examples.enum_123 (PyInt 4)
     = Raised ValidationError
  /\ Validator.validate re (1 + fuel) Examples.enum_123 (PyBool false)
     = Raised ValidationError.
Proof. split; [reflexivity|]. repeat split; evaluate_validate. Qed.

(** ** Where the nested validations of a call take place *)

Lemma bind_same A B (m1 m2 : M A) (f1 f2 : A -> M B) st :
  m1 st = m2 st -> balanced m1 -> (forall a, f1 a st = f2 a st) ->
  bind m1 f1 st = bind m2 f2 st.
Proof.
  intros Hm Hb Hf. unfold bind. rewrite <- Hm.
  destruct (m1 st) as [[a|e|] st1] eqn:E; try reflexivity.
  rewrite (Hb _ _ _ E). apply Hf.
Qed.

Lemma bind_lift_same A B (r : res A) (f1 f2 : A -> M B) st :
  (forall a, r = Ok a -> f1 a st = f2 a st) ->
  bind (lift r) f1 st = bind (lift r) f2 st.
Proof.
  intro Hf. destruct r as [a|e]; [|reflexivity]. cbn. apply Hf. reflexivity.
Qed.

Section Locality.

Variables rec1 rec2 : Schema.t -> pyobj -> M unit.
Variable obj : pyobj.
Variable ctx : list pyobj.

Hypothesis rec1_balanced : forall s o, balanced (rec1 s o).
Hypothesis agree : forall s' obj' st',
  nested_call obj ctx obj' st' -> rec1 s' obj' st' = rec2 s' obj' st'.

Lemma _validate_child_same s child :
  is_child obj child ->
  Validator._validate rec1 s child (ctx ++ [obj])
  = Validator._validate rec2 s child (ctx ++ [obj]).
Proof.
  intro Hc. unfold Validator._validate, bind, append, try_finally.
  rewrite <- app_assoc. cbn [app].
  rewrite (agree s (obj' := child) (st' := ctx ++ [obj; child])).
  - reflexivity.
  - right. left. split; [exact Hc | reflexivity].
Qed.

Lemma _validate_type_loop_same l :
  Validator._validate_type_loop rec1 obj l ctx
  = Validator._validate_type_loop rec2 obj l ctx.
Proof.
  induction l as [|t l IH]; cbn [Validator._validate_type_loop];
    [reflexivity|].
  destruct (py_eq t (PyStr "any")); [reflexivity|].
  destruct (py_eq t (PyStr "boolean")); [reflexivity|].
  destruct (isinstance t [C_dict]).
  { apply bind_lift_same. intros s' _. apply agree. left. tauto. }
  destruct (Validator.JSON_TYPE_MAP_getitem t); [|reflexivity].
  destruct (isinstance obj l0); [reflexivity | exact IH].
Qed.

Lemma _validate_type_same s :
  Validator._validate_type rec1 s obj ctx
  = Validator._validate_type rec2 s obj ctx.
Proof.
  apply bind_lift_same. intros [|t l] _; [reflexivity|].
  apply _validate_type_loop_same.
Qed.

Lemma _validate_requires_same s o :
  Validator._validate_requires rec1 s o ctx
  = Validator._validate_requires rec2 s o ctx.
Proof.
  apply bind_lift_same. intros rj _.
  destruct (is_empty_dict rj); [reflexivity|].
  unfold bind at 1 3, get_stack.
  destruct (List.length ctx <? 2)%nat; [reflexivity|].
  destruct rj; try reflexivity.
  apply bind_lift_same. intros s' _.
  rewrite (agree s' (obj' := nth (List.length ctx - 2) ctx PyNone)
             (st' := firstn (List.length ctx - 2) ctx)).
  - reflexivity.
  - right. right. split; reflexivity.
Qed.

Lemma _validate_properties_loop_same d props :
  (forall k v, lookup k d = Some v -> is_child obj v) ->
  Validator._validate_properties_loop rec1 d props (ctx ++ [obj])
  = Validator._validate_properties_loop rec2 d props (ctx ++ [obj]).
Proof.
  intro Hd. induction props as [|[prop data] props IH];
    cbn [Validator._validate_properties_loop]; [reflexivity|].
  apply bind_lift_same. intros ps _.
  apply bind_same.
  - destruct (lookup prop d) as [v|] eqn:E; [|reflexivity].
    apply _validate_child_same, (Hd _ _ E).
  - destruct (lookup prop d) as [v|].
    + apply _validate_balanced, rec1_balanced.
    + apply balanced_bind; [apply balanced_lift | intros []];
        [apply balanced_ret | apply balanced_raise].
  - intros _. exact IH.
Qed.

Lemma _additional_values_loop_same s d :
  (forall k v, In (k, v) d -> is_child obj v) ->
  Validator._additional_values_loop rec1 s d (ctx ++ [obj])
  = Validator._additional_values_loop rec2 s d (ctx ++ [obj]).
Proof.
  induction d as [|[k v] d IH]; intro Hd;
    cbn [Validator._additional_values_loop]; [reflexivity|].
  apply bind_same.
  - apply _validate_child_same, (Hd k). left. reflexivity.
  - apply _validate_balanced, rec1_balanced.
  - intros _. apply IH. intros k' v' Hin. apply (Hd k'). right. exact Hin.
Qed.

Lemma _validate_each_same s l :
  (forall x, In x l -> is_child obj x) ->
  Validator._validate_each rec1 s l (ctx ++ [obj])
  = Validator._validate_each rec2 s l (ctx ++ [obj]).
Proof.
  induction l as [|x l IH]; intro Hl;
    cbn [Validator._validate_each]; [reflexivity|].
  apply bind_same.
  - apply _validate_child_same, Hl. left. reflexivity.
  - apply _validate_balanced, rec1_balanced.
  - intros _. apply IH. intros y Hy. apply Hl. right. exact Hy.
Qed.

Lemma _validate_pairs_same pairs :
  (forall x y, In (x, y) pairs -> is_child obj x) ->
  Validator._validate_pairs rec1 pairs (ctx ++ [obj])
  = Validator._validate_pairs rec2 pairs (ctx ++ [obj]).
Proof.
  induction pairs as [|[x y] pairs IH]; intro Hp;
    cbn [Validator._validate_pairs]; [reflexivity|].
  apply bind_lift_same. intros s _.
  apply bind_same.
  - apply _validate_child_same, (Hp x y). left. reflexivity.
  - apply _validate_balanced, rec1_balanced.
  - intros _. apply IH. intros x' y' Hin. apply (Hp x' y'). right. exact Hin.
Qed.

Lemma structure_same s :
  (if isinstance obj [C_dict] then
     append obj ;;
     Validator._validate_properties rec1 s obj ;;
     Validator._validate_additional_properties rec1 s obj ;;
     pop
   else if isinstance obj [C_list] then
     append obj ;; Validator._validate_items rec1 s obj ;; pop
   else Validator._validate_enum s obj)%M ctx
  = (if isinstance obj [C_dict] then
       append obj ;;
       Validator._validate_properties rec2 s obj ;;
       Validator._validate_additional_properties rec2 s obj ;;
       pop
     else if isinstance obj [C_list] then
       append obj ;; Validator._validate_items rec2 s obj ;; pop
     else Validator._validate_enum s obj)%M ctx.
Proof.
  case_eq obj; try reflexivity.
  - (* an array *)
    intros l Eo. cbn [isinstance existsb instance_of orb].
    unfold bind at 1 3, append.
    apply bind_same;
      [|rewrite <- Eo; apply _validate_items_balanced, rec1_balanced
       |reflexivity].
    unfold Validator._validate_items.
    apply bind_lift_same. intros isj _.
    destruct (is_empty_dict isj); [reflexivity|].
    destruct isj as [| | | | | |ss|d']; try reflexivity.
    + destruct (List.length l <? List.length ss)%nat eqn:Elen;
        [reflexivity|].
      apply Nat.ltb_ge in Elen.
      apply bind_same; [reflexivity| |].
      { destruct (negb _); [|apply balanced_ret].
        apply balanced_bind; [apply balanced_lift | intro ap].
        destruct (is_False ap); [apply balanced_raise | apply balanced_ret]. }
      intros _. apply bind_lift_same. intros fillvalue _.
      rewrite <- Eo. apply _validate_pairs_same.
      intros x y Hin. apply izip_longest_In in Hin; [|exact Elen].
      rewrite Eo. exact (proj1 Hin).
    + apply bind_lift_same. intros s' _.
      rewrite <- Eo. apply _validate_each_same.
      intros x Hin. rewrite Eo. exact Hin.
  - (* an object *)
    intros d Eo. cbn [isinstance existsb instance_of orb].
    unfold bind at 1 4, append.
    apply bind_same;
      [|rewrite <- Eo; apply _validate_properties_balanced, rec1_balanced|].
    + unfold Validator._validate_properties.
      apply bind_lift_same. intros props _.
      rewrite <- Eo. apply _validate_properties_loop_same.
      intros k v Hl. rewrite Eo. apply lookup_In in Hl. exact Hl.
    + intros _. apply bind_same;
        [|rewrite <- Eo;
          apply _validate_additional_properties_balanced, rec1_balanced
         |reflexivity].
      unfold Validator._validate_additional_properties.
      apply bind_lift_same. intros ap _.
      destruct (is_False ap); [reflexivity|].
      apply bind_lift_same. intros s' _.
      rewrite <- Eo. apply _additional_values_loop_same.
      intros k v Hin. rewrite Eo. exists k. exact Hin.
Qed.

Lemma _validate_no_push_body_same re s :
  Validator._validate_no_push_body re rec1 s obj ctx
  = Validator._validate_no_push_body re rec2 s obj ctx.
Proof.
  unfold Validator._validate_no_push_body.
  apply bind_same;
    [apply _validate_type_same
    | apply _validate_type_balanced, rec1_balanced | intros _].
  apply bind_same;
    [apply _validate_requires_same
    | apply _validate_requires_balanced | intros _].
  apply bind_same; [apply structure_same | | reflexivity].
  destruct (isinstance obj [C_dict]); [|destruct (isinstance obj [C_list])].
  - apply balanced_append.
    apply pops_one_bind;
      [apply _validate_properties_balanced, rec1_balanced | intro].
    apply pops_one_bind;
      [apply _validate_additional_properties_balanced, rec1_balanced
      | intro].
    apply pops_one_pop.
  - apply balanced_append.
    apply pops_one_bind;
      [apply _validate_items_balanced, rec1_balanced | intro].
    apply pops_one_pop.
  - apply _validate_enum_balanced.
Qed.

End Locality.

(** ** The requires check *)

Lemma requires_of_lookup schema r :
  lookup "requires" (Schema._schema schema) = Some r ->
  (exists name, r = PyStr name) \/ (exists d, r = PyDict d /\ d <> []) ->
  Schema.requires schema = Ok r /\ is_empty_dict r = false.
Proof.
  intros Hl Hr. unfold Schema.requires, dict_get. rewrite Hl.
  destruct Hr as [[name ->]|[d [-> Hd]]]; cbn.
  - split; reflexivity.
  - split; [reflexivity|]. destruct d; [contradiction | reflexivity].
Qed.

(** [st[-2]] and [st[:-2]] *)
Lemma penultimate (base : list pyobj) parent top :
  nth (List.length (base ++ [parent; top]) - 2) (base ++ [parent; top]) PyNone
  = parent.
Proof.
  rewrite length_app. cbn [List.length].
  replace (List.length base + 2 - 2) with (List.length base + 0) by lia.
  rewrite app_nth2_plus. reflexivity.
Qed.

Lemma all_but_last_two (base : list pyobj) parent top :
  firstn (List.length (base ++ [parent; top]) - 2) (base ++ [parent; top])
  = base.
Proof.
  rewrite length_app. cbn [List.length].
  replace (List.length base + 2 - 2) with (List.length base) by lia.
  rewrite firstn_app, Nat.sub_diag, firstn_all. cbn [firstn].
  apply app_nil_r.
Qed.

(** C6 (as amended).  When [requires] is a nested schema and the stack
    holds a parent and a current entry on top of [base], the parent is
    validated against that schema by a validator whose stack is [base]:
    the stack of the requires check without its last two entries; the
    stack of the calling validator is untouched.  The nested validations
    that a call on a node with the stack [ctx] makes are of the node
    itself on [ctx], of a child on [ctx ++ [node; child]], and of
    [ctx[-2]] on [ctx[:-2]]: the result of the call depends on the
    recursive calls at these places only.  So the requires check of a
    child runs on [ctx ++ [node; child]], and the stack it hands to the
    validation of the parent [node] is [ctx], the stack the parent
    itself is being validated on. *)
Theorem C6_requires_schema_on_parent_context re fuel :
  (forall schema obj d base parent top,
      lookup "requires" (Schema._schema schema) = Some (PyDict d) ->
      d <> [] ->
      Validator._validate_requires (Validator._validate_no_push re fuel)
        schema obj (base ++ [parent; top])
      = (fst (Validator._validate_no_push re fuel (Schema.Build d)
                parent base),
         base ++ [parent; top]))
  /\ (forall rec2 schema node ctx,
      (forall s' obj' st', nested_call node ctx obj' st' ->
         Validator._validate_no_push re fuel s' obj' st' = rec2 s' obj' st') ->
      Validator._validate_no_push re (S fuel) schema node ctx
      = Validator._validate_no_push_body re rec2 schema node ctx)
  /\ (forall ctx node child,
      nested_call child (ctx ++ [node; child]) node ctx).
Proof.
  split; [|split].
  - intros schema obj d base parent top Hl Hd.
    destruct (@requires_of_lookup schema (PyDict d) Hl) as [Hr He].
    { right. exists d. split; [reflexivity | exact Hd]. }
    unfold Validator._validate_requires.
    rewrite Hr. erewrite bind_returns by reflexivity.
    rewrite He. erewrite bind_returns by reflexivity.
    replace (List.length (base ++ [parent; top]) <? 2)%nat with false
      by (symmetry; apply Nat.ltb_ge; rewrite length_app; cbn; lia).
    erewrite bind_returns by reflexivity.
    rewrite penultimate, all_but_last_two. reflexivity.
  - intros rec2 schema node ctx Hagree.
    cbn [Validator._validate_no_push].
    apply _validate_no_push_body_same; [|exact Hagree].
    intros. apply _validate_no_push_balanced.
  - intros ctx node child. right. right.
    rewrite penultimate, all_but_last_two. split; reflexivity.
Qed.

(** C6, the claim as stated fails where it says that the truncated stack
    is not the parent's own context.  On
    [{"b": 1, "p": {"a": 1}}] the object [p] is validated on the stack
    [[family; p]], its property [a] on [[family; p; p; 1]], and the
    requires check of [a] validates [p] on [[family; p]] again: the
    [requires: name] inside the requires schema finds the parent of [p],
    so the document is accepted with ["b"] and rejected with ["c"]. *)
Lemma C6_truncated_stack_is_parent_context :
  Validator.validate Examples.any_regex 6 (Examples.grandparent_has "b")
    Examples.family
  = Returned true
  /\ Validator.validate Examples.any_regex 6 (Examples.grandparent_has "c")
       Examples.family
     = Raised ValidationError
  /\ Validator._validate_requires
       (Validator._validate_no_push Examples.any_regex 3)
       (Schema.Build [("requires", PyDict [("requires", PyStr "b")])])
       (PyInt 1)
       ([Examples.family; Examples.doc_a_1] ++ [Examples.doc_a_1; PyInt 1])
     = (fst (Validator._validate_no_push Examples.any_regex 3
               (Schema.Build [("requires", PyStr "b")]) Examples.doc_a_1
               [Examples.family; Examples.doc_a_1]),
        [Examples.family; Examples.doc_a_1] ++ [Examples.doc_a_1; PyInt 1])
  /\ Validator._validate_no_push Examples.any_regex 3
       (Schema.Build [("requires", PyStr "b")]) Examples.doc_a_1
       [Examples.family; Examples.doc_a_1]
     = (Returned tt, [Examples.family; Examples.doc_a_1]).
Proof. repeat split; vm_compute; reflexivity. Qed.

(** C7.  With fewer than two entries on the stack (no structural parent,
    as at the document root) and a [requires] that is a property name or
    a non-empty nested schema, the requires check raises a
    [ValidationError], not a [SchemaError]; so does [Validator.validate]
    whenever the type check that runs first returns. *)
Theorem C7_requires_without_parent_is_mismatch re fuel schema obj r st :
  lookup "requires" (Schema._schema schema) = Some r ->
  (exists name, r = PyStr name) \/ (exists d, r = PyDict d /\ d <> []) ->
  List.length st < 2 ->
  Validator._validate_requires (Validator._validate_no_push re fuel)
    schema obj st
  = (Raised ValidationError, st)
  /\ (fst (Validator._validate_type (Validator._validate_no_push re fuel)
             schema obj []) = Returned tt ->
      Validator.validate re (S fuel) schema obj = Raised ValidationError).
Proof.
  intros Hl Hr Hst.
  destruct (requires_of_lookup _ Hl Hr) as [Ha He].
  assert (Hreq : forall st', List.length st' < 2 ->
            Validator._validate_requires (Validator._validate_no_push re fuel)
              schema obj st' = (Raised ValidationError, st')).
  { intros st' Hlen. unfold Validator._validate_requires.
    rewrite Ha. erewrite bind_returns by reflexivity.
    rewrite He. erewrite bind_returns by reflexivity.
    replace (List.length st' <? 2)%nat with true
      by (symmetry; apply Nat.ltb_lt; exact Hlen).
    reflexivity. }
  split; [apply Hreq, Hst|].
  intro Ht. unfold Validator.validate.
  cbn [Validator._validate_no_push].
  unfold Validator._validate_no_push_body.
  destruct (Validator._validate_type _ schema obj []) as [x st1] eqn:E.
  cbn in Ht. subst x.
  pose proof (@_validate_type_balanced _ (_validate_no_push_balanced re fuel)
                schema obj [] tt st1 E) as Hb.
  subst st1.
  erewrite bind_returns by exact E.
  erewrite bind_raises; [reflexivity|].
  apply Hreq. cbn. lia.
Qed.

(** ** The entry point *)

(** C10.  A schema value that is not a dict makes [Schema.__init__]
    raise a [SchemaError], and the module-level [validate] raises it
    whatever the document text is (parseable or not) and before any
    validation step: the result does not depend on [data_text] nor on
    the fuel. *)
Theorem C10_schema_must_be_a_mapping
    re loads fuel schema_text data_text v :
  loads schema_text = Ok v ->
  isinstance v [C_dict] = false ->
  Schema.__init__ v = Err SchemaError
  /\ validate re loads fuel schema_text data_text = Raised SchemaError.
Proof.
  intros Hl Hv.
  assert (Hi : Schema.__init__ v = Err SchemaError)
    by (destruct v; try reflexivity; discriminate).
  split; [exact Hi|].
  unfold validate. rewrite Hl. cbn [res_bind]. rewrite Hi. reflexivity.
Qed.

(** ** Tuple typing of arrays *)

Lemma conforms_runs re fuel st item sj :
  conforms re fuel st item sj ->
  exists s, Schema.__init__ sj = Ok s /\
    Validator._validate (Validator._validate_no_push re fuel) s item st
    = (Returned tt, st).
Proof.
  intros [s [Hs Hv]]. exists s. split; [exact Hs|].
  destruct (Validator._validate _ s item st) as [x st'] eqn:E.
  cbn in Hv. subst x.
  rewrite (@_validate_balanced _ (_validate_no_push_balanced re fuel)
             s item st tt st' E).
  reflexivity.
Qed.

Lemma _validate_pairs_fill re fuel st fill extras :
  Forall (fun x => conforms re fuel st x fill) extras ->
  Validator._validate_pairs (Validator._validate_no_push re fuel)
    (izip_longest extras [] fill) st
  = (Returned tt, st).
Proof.
  induction 1 as [|x extras Hx _ IH]; cbn; [reflexivity|].
  destruct (conforms_runs Hx) as [s [Hs Hv]].
  rewrite Hs. erewrite bind_returns by reflexivity.
  erewrite bind_returns by exact Hv.
  exact IH.
Qed.

Lemma _validate_pairs_conforming re fuel st fill l ss extras :
  Forall2 (conforms re fuel st) l ss ->
  Forall (fun x => conforms re fuel st x fill) extras ->
  Validator._validate_pairs (Validator._validate_no_push re fuel)
    (izip_longest (l ++ extras) ss fill) st
  = (Returned tt, st).
Proof.
  intros Hl He. induction Hl as [|x sj l ss Hx _ IH].
  - apply _validate_pairs_fill, He.
  - cbn. destruct (conforms_runs Hx) as [s [Hs Hv]].
    rewrite Hs. erewrite bind_returns by reflexivity.
    erewrite bind_returns by exact Hv.
    exact IH.
Qed.

Lemma items_of_lookup schema ss :
  lookup "items" (Schema._schema schema) = Some (PyList ss) ->
  Schema.items schema = Ok (PyList ss).
Proof.
  intro H. unfold Schema.items, dict_get. rewrite H. reflexivity.
Qed.

(** C5.  For a schema whose [items] is a list [ss] of [N] nested schemas,
    [_validate_items]
    - returns on an array of length [N] whose elements conform to the
      schemas at their positions (the schema's [additionalProperties]
      being well formed);
    - raises a [ValidationError] on an array of length [N - 1];
    - returns on an array of length [N + 1] when [additionalProperties]
      is absent, the first [N] elements conform and the extra one
      conforms to the default [{}];
    - raises a [ValidationError] on an array of length [N + 1] when
      [additionalProperties] is [false]. *)
Theorem C5_tuple_items re fuel schema ss st :
  lookup "items" (Schema._schema schema) = Some (PyList ss) ->
  (forall l ap,
      List.length l = List.length ss ->
      Schema.additionalProperties schema = Ok ap ->
      Forall2 (conforms re fuel st) l ss ->
      Validator._validate_items (Validator._validate_no_push re fuel)
        schema (PyList l) st = (Returned tt, st))
  /\ (forall l,
      S (List.length l) = List.length ss ->
      Validator._validate_items (Validator._validate_no_push re fuel)
        schema (PyList l) st = (Raised ValidationError, st))
  /\ (forall l extra,
      List.length l = List.length ss ->
      lookup "additionalProperties" (Schema._schema schema) = None ->
      Forall2 (conforms re fuel st) l ss ->
      conforms re fuel st extra (PyDict []) ->
      Validator._validate_items (Validator._validate_no_push re fuel)
        schema (PyList (l ++ [extra])) st = (Returned tt, st))
  /\ (forall l extra,
      List.length l = List.length ss ->
      lookup "additionalProperties" (Schema._schema schema)
        = Some (PyBool false) ->
      Validator._validate_items (Validator._validate_no_push re fuel)
        schema (PyList (l ++ [extra])) st = (Raised ValidationError, st)).
Proof.
  intro Hi. apply items_of_lookup in Hi.
  repeat split.
  - intros l ap Hlen Hap Hall.
    unfold Validator._validate_items.
    rewrite Hi. erewrite bind_returns by reflexivity.
    cbn [is_empty_dict].
    rewrite Hlen, Nat.ltb_irrefl, Nat.eqb_refl. cbn [negb].
    erewrite bind_returns by reflexivity.
    rewrite Hap. erewrite bind_returns by reflexivity.
    rewrite <- (app_nil_r l).
    apply _validate_pairs_conforming; [exact Hall | constructor].
  - intros l Hlen.
    unfold Validator._validate_items.
    rewrite Hi. erewrite bind_returns by reflexivity.
    cbn [is_empty_dict].
    replace (List.length l <? List.length ss)%nat with true
      by (symmetry; apply Nat.ltb_lt; lia).
    reflexivity.
  - intros l extra Hlen Hap Hall Hextra.
    assert (Ha : Schema.additionalProperties schema = Ok (PyDict [])).
    { unfold Schema.additionalProperties, dict_get. rewrite Hap.
      reflexivity. }
    unfold Validator._validate_items.
    rewrite Hi. erewrite bind_returns by reflexivity.
    cbn [is_empty_dict].
    rewrite length_app. cbn [List.length].
    replace (List.length l + 1 <? List.length ss)%nat with false
      by (symmetry; apply Nat.ltb_ge; lia).
    replace (List.length l + 1 =? List.length ss)%nat with false
      by (symmetry; apply Nat.eqb_neq; lia).
    cbn [negb]. rewrite Ha.
    erewrite bind_returns by reflexivity.
    erewrite bind_returns by reflexivity.
    apply _validate_pairs_conforming; [exact Hall|].
    constructor; [exact Hextra | constructor].
  - intros l extra Hlen Hap.
    assert (Ha : Schema.additionalProperties schema = Ok (PyBool false)).
    { unfold Schema.additionalProperties, dict_get. rewrite Hap.
      reflexivity. }
    unfold Validator._validate_items.
    rewrite Hi. erewrite bind_returns by reflexivity.
    cbn [is_empty_dict].
    rewrite length_app. cbn [List.length].
    replace (List.length l + 1 <? List.length ss)%nat with false
      by (symmetry; apply Nat.ltb_ge; lia).
    replace (List.length l + 1 =? List.length ss)%nat with false
      by (symmetry; apply Nat.eqb_neq; lia).
    cbn [negb]. rewrite Ha.
    reflexivity.
Qed.

(** The default [{}] accepts any extra element, given fuel above its
    depth. *)
Lemma conforms_default re fuel st extra :
  height extra < fuel -> conforms re fuel st extra (PyDict []).
Proof.
  intro Hf. exists (Schema.Build []). split; [reflexivity|].
  rewrite _validate_returns; [reflexivity|].
  apply empty_schema_accepts, Hf.
Qed.

(** ** The unsupported-feature gate *)



(** The keywords the checks before the gate read. *)
Section SameChecks.

Variables s s' : Schema.t.
Variable rec : Schema.t -> pyobj -> M unit.

Hypothesis same_type : Schema.type s' = Schema.type s.
Hypothesis same_requires : Schema.requires s' = Schema.requires s.
Hypothesis same_properties : Schema.properties s' = Schema.properties s.
Hypothesis same_additional :
  Schema.additionalProperties s' = Schema.additionalProperties s.
Hypothesis same_items : Schema.items s' = Schema.items s.
Hypothesis same_enum : Schema.enum s' = Schema.enum s.



End SameChecks.





Lemma validate_returned re fuel s o :
  Validator.validate re fuel s o = Returned true ->
  exists st', Validator._validate_no_push re fuel s o [] = (Returned tt, st').
Proof.
  unfold Validator.validate.
  destruct (Validator._validate_no_push re fuel s o []) as [[[]|e|] st'];
    cbn; intro H; try discriminate.
  exists st'. reflexivity.
Qed.





(** ** Instances *)


(** The four cases of tuple typing on
    [{"items": [{"type": "integer"}, {"type": "string"}]}]. *)
Lemma C5_tuple_items_on_integer_string :
  let rec := Validator._validate_no_push Examples.any_regex 2 in
  Validator._validate_items rec Examples.tuple_open
    (PyList [PyInt 1; PyStr "a"]) []
  = (Returned tt, [])
  /\ Validator._validate_items rec Examples.tuple_open (PyList [PyInt 1]) []
     = (Raised ValidationError, [])
  /\ Validator._validate_items rec Examples.tuple_open
       (PyList ([PyInt 1; PyStr "a"] ++ [PyNone])) []
     = (Returned tt, [])
  /\ Validator._validate_items rec Examples.tuple_closed
       (PyList ([PyInt 1; PyStr "a"] ++ [PyNone])) []
     = (Raised ValidationError, []).
Proof.
  destruct (@C5_tuple_items Examples.any_regex 2 Examples.tuple_open
              [PyDict [("type", PyStr "integer")];
               PyDict [("type", PyStr "string")]] [] eq_refl)
    as (Ha & Hb & Hc & _).
  destruct (@C5_tuple_items Examples.any_regex 2 Examples.tuple_closed
              [PyDict [("type", PyStr "integer")];
               PyDict [("type", PyStr "string")]] [] eq_refl)
    as (_ & _ & _ & Hd).
  assert (Hall : Forall2 (conforms Examples.any_regex 2 [])
                   [PyInt 1; PyStr "a"]
                   [PyDict [("type", PyStr "integer")];
                    PyDict [("type", PyStr "string")]]).
  { repeat constructor; eexists; (split; [reflexivity|]);
      vm_compute; reflexivity. }
  cbv zeta. split; [|split; [|split]].
  - apply (Ha _ (PyDict [])); [reflexivity | reflexivity | exact Hall].
  - apply Hb. reflexivity.
  - apply Hc; [reflexivity | reflexivity | exact Hall |].
    eexists; (split; [reflexivity|]); vm_compute; reflexivity.
  - apply Hd; reflexivity.
Defined.

(** [requires: {"type": "object"}] on the property [a] of [{"a": 1}],
    and a call on [{"a": "x"}] whose nested calls are on stacks of at
    most two entries. *)
Lemma C6_requires_schema_on_parent :
  Validator._validate_requires
    (Validator._validate_no_push Examples.any_regex 2)
    Examples.requires_object (PyInt 1)
    ([] ++ [Examples.doc_a_1; PyInt 1])
  = (Returned tt, [] ++ [Examples.doc_a_1; PyInt 1])
  /\ Validator._validate_no_push Examples.any_regex 3 Examples.named_only
       Examples.doc_a_x []
     = Validator._validate_no_push_body Examples.any_regex
         (Examples.shallow (Validator._validate_no_push Examples.any_regex 2))
         Examples.named_only Examples.doc_a_x [].
Proof.
  destruct (C6_requires_schema_on_parent_context Examples.any_regex 2)
    as (Htruncated & Hplaces & _).
  split.
  - rewrite (Htruncated Examples.requires_object (PyInt 1)
               [("type", PyStr "object")] [] Examples.doc_a_1 (PyInt 1)
               eq_refl ltac:(discriminate)).
    vm_compute. reflexivity.
  - apply Hplaces. intros s' obj' st' Hn. unfold Examples.shallow.
    destruct Hn as [[_ ->]|[[_ ->]|[_ ->]]]; reflexivity.
Defined.

(** [requires: "b"] on a root document. *)
Lemma C7_requires_b_at_root :
  Validator._validate_requires
    (Validator._validate_no_push Examples.any_regex 0)
    Examples.requires_b (PyInt 1) []
  = (Raised ValidationError, [])
  /\ Validator.validate Examples.any_regex 1 Examples.requires_b (PyInt 1)
     = Raised ValidationError.
Proof.
  destruct (@C7_requires_without_parent_is_mismatch Examples.any_regex 0
              Examples.requires_b (PyInt 1) (PyStr "b") [] eq_refl
              (or_introl (ex_intro _ "b" eq_refl))
              (Nat.lt_0_succ 1))
    as [H1 H2].
  split; [exact H1 | apply H2; reflexivity].
Defined.

(** The schema text [[]], with a data text that does not even parse. *)
Lemma C10_list_schema_text :
  Schema.__init__ (PyList []) = Err SchemaError
  /\ validate Examples.any_regex Examples.loads 5 "[]" "not json"
     = Raised SchemaError.
Proof.
  apply (@C10_schema_must_be_a_mapping Examples.any_regex Examples.loads 5
           "[]" "not json" (PyList [])); reflexivity.
Defined.

(** ** What the accessors return *)

Lemma py_eq_name_refl t :
  Schema.is_simple_type_name t = true -> py_eq t t = true.
Proof.
  destruct t; cbn; try discriminate. intros _. apply String.eqb_refl.
Qed.

Lemma py_eq_name_eq t u :
  Schema.is_simple_type_name t = true -> py_eq u t = true -> u = t.
Proof.
  destruct t as [| | | | |name| |]; cbn; try discriminate. intros _.
  destruct u as [|b| | | |name'| |]; cbn; try discriminate.
  intro H. apply String.eqb_eq in H. congruence.
Qed.

Lemma check_type_list_ok seen l :
  Schema.check_type_list seen l = Ok tt ->
  Forall (fun t => valid_alternative t = true) l
  /\ NoDup (simple_names l)
  /\ (forall t, In t (simple_names l) ->
        Schema.is_simple_type_name t = true
        /\ existsb (py_eq t) seen = false).
Proof.
  revert seen. induction l as [|t l IH]; intros seen H.
  - split; [constructor|]. split; [constructor|]. intros u [].
  - cbn [Schema.check_type_list] in H. unfold simple_names.
    cbn [filter].
    destruct (isinstance t [C_dict]) eqn:Ed.
    + destruct (IH seen H) as (Hv & Hn & Hs).
      cbn [negb]. split; [|split; assumption].
      constructor; [|exact Hv].
      unfold valid_alternative. rewrite Ed. reflexivity.
    + destruct (negb (hashable t)); [discriminate|].
      destruct (existsb (py_eq t) seen) eqn:Es; [discriminate|].
      destruct (Schema.is_simple_type_name t) eqn:En; [|discriminate].
      cbn [negb] in *.
      destruct (IH (t :: seen) H) as (Hv & Hn & Hs).
      split.
      { constructor; [|exact Hv].
        unfold valid_alternative. rewrite Ed, En. reflexivity. }
      split.
      * constructor; [|exact Hn]. intro Hin.
        destruct (Hs t Hin) as [_ Hex]. cbn in Hex.
        rewrite (py_eq_name_refl _ En) in Hex. discriminate.
      * intros u [<-|Hin]; [split; assumption|].
        destruct (Hs u Hin) as [Hu Hex]. split; [exact Hu|].
        cbn in Hex. apply orb_false_iff in Hex. tauto.
Qed.

Lemma type_valid s l :
  Schema.type s = Ok l -> Forall (fun t => valid_alternative t = true) l.
Proof.
  unfold Schema.type. destruct (negb _); [discriminate|].
  destruct (Schema.check_type_list [] _) as [[]|e] eqn:E; [|discriminate].
  cbn. intro H. inversion H; subst. apply (check_type_list_ok _ _ E).
Qed.

Lemma type_ok_inv s l :
  Schema.type s = Ok l ->
  Forall (fun t => valid_alternative t = true) l
  /\ NoDup (simple_names l)
  /\ l = Schema.as_list (dict_get (Schema._schema s) "type" (PyStr "any")).
Proof.
  intro H. split; [exact (type_valid _ H)|].
  revert H. unfold Schema.type. destruct (negb _); [discriminate|].
  destruct (Schema.check_type_list [] _) as [[]|e] eqn:E; [|discriminate].
  cbn. intro H. inversion H; subst.
  split; [apply (check_type_list_ok _ _ E) | reflexivity].
Qed.

(** X1.  The list [Schema.type] returns holds only nested schemas and
    simple type names, no simple type name twice; it is the list given,
    or the one-element list of the single value given, ["any"] when the
    keyword is absent. *)
Theorem X1_type_is_normalized s l :
  Schema.type s = Ok l ->
  Forall (fun t => valid_alternative t = true) l
  /\ NoDup (simple_names l)
  /\ l = Schema.as_list (dict_get (Schema._schema s) "type" (PyStr "any")).
Proof. apply type_ok_inv. Qed.

Lemma X1_type_is_normalized_witness :
  Forall (fun t => valid_alternative t = true)
    [PyStr "string"; PyDict [("type", PyStr "number")]]
  /\ NoDup (simple_names [PyStr "string"; PyDict [("type", PyStr "number")]])
  /\ [PyStr "string"; PyDict [("type", PyStr "number")]]
     = Schema.as_list
         (dict_get (Schema._schema Examples.string_or_nested_number)
            "type" (PyStr "any")).
Proof.
  apply (@X1_type_is_normalized Examples.string_or_nested_number).
  reflexivity.
Defined.

Lemma check_type_list_errors seen l e :
  Schema.check_type_list seen l = Err e -> e = SchemaError \/ e = TypeError.
Proof.
  revert seen. induction l as [|t l IH]; intros seen;
    cbn [Schema.check_type_list]; [discriminate|].
  destruct (isinstance t [C_dict]); [apply IH|].
  destruct (negb (hashable t)); [intro H; inversion H; tauto|].
  destruct (existsb (py_eq t) seen); [intro H; inversion H; tauto|].
  destruct (negb (Schema.is_simple_type_name t));
    [intro H; inversion H; tauto | apply IH].
Qed.

(** X2.  A simple type name given twice in the [type] list, as in
    [["string", "string"]], makes [Schema.type] raise, whatever else the
    list holds: a [SchemaError], or the [TypeError] of an unhashable
    element met before the repetition. *)
Theorem X2_type_duplicate_raises s name before between rest :
  lookup "type" (Schema._schema s)
  = Some (PyList (before ++ PyStr name :: between ++ PyStr name :: rest)) ->
  Schema.type s = Err SchemaError \/ Schema.type s = Err TypeError.
Proof.
  intro H. destruct (Schema.type s) as [l|e] eqn:E.
  - exfalso.
    destruct (type_ok_inv _ E) as (_ & Hn & Hl).
    unfold dict_get in Hl. rewrite H in Hl. cbn [Schema.as_list] in Hl.
    subst l. unfold simple_names in Hn.
    rewrite filter_app in Hn.
    cbn [filter isinstance existsb instance_of orb negb] in Hn.
    apply NoDup_remove_2 in Hn. apply Hn.
    apply in_or_app. right.
    rewrite filter_app. apply in_or_app. right.
    cbn. left. reflexivity.
  - revert E. unfold Schema.type, dict_get. rewrite H.
    cbn [isinstance existsb instance_of orb negb Schema.as_list].
    destruct (Schema.check_type_list [] _) as [[]|e'] eqn:E';
      cbn; intro Hx; inversion Hx; subst.
    destruct (check_type_list_errors _ _ E') as [->| ->]; tauto.
Qed.

Lemma X2_type_duplicate_raises_witness :
  Schema.type
    (Schema.Build
       [("type", PyList ([] ++ PyStr "string" :: [PyStr "number"]
                            ++ PyStr "string" :: []))])
  = Err SchemaError
  \/ Schema.type
       (Schema.Build
          [("type", PyList ([] ++ PyStr "string" :: [PyStr "number"]
                               ++ PyStr "string" :: []))])
     = Err TypeError.
Proof.
  apply (@X2_type_duplicate_raises _ "string" [] [PyStr "number"] []).
  reflexivity.
Defined.

Lemma check_enum_ok seen l :
  Schema.check_enum seen l = Ok tt ->
  Forall (fun x => hashable x = true) l
  /\ ForallOrdPairs (fun a b => py_eq b a = false) l
  /\ Forall (fun x => existsb (py_eq x) seen = false) l.
Proof.
  revert seen. induction l as [|x l IH]; intros seen H.
  - repeat split; constructor.
  - cbn [Schema.check_enum] in H.
    destruct (hashable x) eqn:Eh; [|discriminate]. cbn [negb] in H.
    destruct (existsb (py_eq x) seen) eqn:Es; [discriminate|].
    destruct (IH (x :: seen) H) as (Hh & Hp & Hs).
    split; [constructor; assumption|]. split.
    + constructor; [|exact Hp].
      rewrite Forall_forall in *. intros y Hy. specialize (Hs y Hy).
      cbn in Hs. apply orb_false_iff in Hs. tauto.
    + constructor; [exact Es|].
      rewrite Forall_forall in *. intros y Hy. specialize (Hs y Hy).
      cbn in Hs. apply orb_false_iff in Hs. tauto.
Qed.

(** X3.  The list [Schema.enum] returns is not empty, holds hashable
    values only (no list, no dict), and no element equals an earlier
    one. *)
Theorem X3_enum_is_normalized s l :
  Schema.enum s = Ok (Some l) ->
  l <> []
  /\ Forall (fun x => hashable x = true) l
  /\ ForallOrdPairs (fun a b => py_eq b a = false) l.
Proof.
  unfold Schema.enum. destruct (is_None _); [discriminate|].
  destruct (dict_get _ _ _); try discriminate.
  destruct (List.length items =? 0)%nat eqn:El; [discriminate|].
  destruct (Schema.check_enum [] items) as [[]|e] eqn:E; [|discriminate].
  cbn. intro H. inversion H; subst.
  split; [intros ->; discriminate|].
  destruct (check_enum_ok _ _ E) as (Hh & Hp & _). split; assumption.
Qed.

Lemma X3_enum_is_normalized_witness :
  [PyInt 1; PyInt 2; PyInt 3] <> []
  /\ Forall (fun x => hashable x = true) [PyInt 1; PyInt 2; PyInt 3]
  /\ ForallOrdPairs (fun a b => py_eq b a = false)
       [PyInt 1; PyInt 2; PyInt 3].
Proof.
  apply (@X3_enum_is_normalized Examples.enum_123). reflexivity.
Defined.

(** ** The type check on simple names *)

Lemma type_map_of_name t :
  valid_alternative t = true ->
  isinstance t [C_dict] = false ->
  py_eq t (PyStr "any") = false ->
  py_eq t (PyStr "boolean") = false ->
  exists classes, Validator.JSON_TYPE_MAP_getitem t = Some classes.
Proof.
  unfold valid_alternative. intros Hv Hd Ha Hb. rewrite Hd in Hv.
  destruct t as [| | | | |name| |]; try discriminate.
  cbn [orb Schema.is_simple_type_name] in Hv. unfold str_in in Hv.
  cbn [existsb Schema.simple_type_names] in Hv.
  revert Hv.
  repeat match goal with
  | |- (String.eqb name ?x || _)%bool = true -> _ =>
      destruct (String.eqb_spec name x) as [->|_];
        [intros _; first [eexists; reflexivity | discriminate]|];
        cbn [orb]
  end.
  discriminate.
Qed.

Lemma plain_name_tests t :
  plain_name t = true ->
  isinstance t [C_dict] = false /\ py_eq t (PyStr "boolean") = false.
Proof.
  destruct t as [| | | | |name| |]; try discriminate. cbn.
  intro H. split; [reflexivity|].
  destruct (String.eqb name "boolean"); [discriminate | reflexivity].
Qed.

Lemma _validate_type_loop_plain rec obj st l :
  Forall (fun t => valid_alternative t = true) l ->
  Forall (fun t => plain_name t = true) l ->
  Validator._validate_type_loop rec obj l st
  = if existsb (alternative_matches obj) l
    then (Returned tt, st) else (Raised ValidationError, st).
Proof.
  induction l as [|t l IH]; intros Hv Hp; [reflexivity|].
  inversion Hv as [|? ? Hvt Hvl]; subst.
  inversion Hp as [|? ? Hpt Hpl]; subst.
  destruct (plain_name_tests _ Hpt) as [Hd Hb].
  cbn [Validator._validate_type_loop existsb]. unfold alternative_matches at 1.
  destruct (py_eq t (PyStr "any")) eqn:Ea; [reflexivity|].
  rewrite Hb, Hd.
  destruct (type_map_of_name _ Hvt Hd Ea Hb) as [classes Hc]. rewrite Hc.
  cbn [orb].
  destruct (isinstance obj classes); [reflexivity|].
  apply IH; assumption.
Qed.

(** X4.  When the [type] list holds only simple type names other than
    ["boolean"], the type check is a union: it returns when the value is
    of the kind of one of the names (or ["any"] is among them), and
    raises a [ValidationError] otherwise.  No nested call is made and the
    stack is untouched. *)
Theorem X4_plain_type_names_are_a_union rec s obj st l :
  Schema.type s = Ok l ->
  l <> [] ->
  Forall (fun t => plain_name t = true) l ->
  Validator._validate_type rec s obj st
  = if existsb (alternative_matches obj) l
    then (Returned tt, st) else (Raised ValidationError, st).
Proof.
  intros H Hne Hp. unfold Validator._validate_type.
  rewrite H. erewrite bind_returns by reflexivity.
  destruct l as [|t l]; [contradiction|].
  apply _validate_type_loop_plain; [exact (type_valid _ H) | exact Hp].
Qed.

Lemma X4_plain_type_names_are_a_union_witness :
  Validator._validate_type (fun _ _ => raise KeyError)
    (Schema.Build [("type", PyList [PyStr "string"; PyStr "null"])])
    PyNone []
  = if existsb (alternative_matches PyNone) [PyStr "string"; PyStr "null"]
    then (Returned tt, []) else (Raised ValidationError, []).
Proof.
  apply X4_plain_type_names_are_a_union;
    [reflexivity | discriminate | repeat constructor].
Defined.

(** ** Properties of objects *)

Lemma _validate_properties_loop_returned rec d props st st' :
  Validator._validate_properties_loop rec d props st = (Returned tt, st') ->
  forall prop data, In (prop, data) props ->
    exists ps, Schema.__init__ data = Ok ps
      /\ (lookup prop d <> None \/ Schema.optional ps = Ok true).
Proof.
  revert st. induction props as [|[p0 data0] props IH]; intros st H prop data;
    [intros []|].
  cbn [Validator._validate_properties_loop] in H.
  apply bind_returned in H. destruct H as (ps & st1 & H1 & H).
  apply bind_returned in H. destruct H as (u & st2 & H2 & H).
  intros [Heq|Hin]; [|exact (IH _ H _ _ Hin)].
  inversion Heq; subst. exists ps. split.
  - destruct (Schema.__init__ data) as [x|e]; cbn in H1; inversion H1.
    reflexivity.
  - destruct (lookup prop d); [left; discriminate|]. right.
    apply bind_returned in H2. destruct H2 as (opt & st3 & H3 & H4).
    destruct (Schema.optional ps) as [[]|e]; cbn in H3, H4; inversion H3;
      subst; [reflexivity | discriminate].
Qed.

(** X5.  A document object that lacks a property whose schema does not
    say [optional: true] is never accepted, wherever the property stands
    in [properties] and whatever the rest of the schema says. *)
Theorem X5_missing_required_property_never_accepted
    re fuel s d st props prop ps :
  Schema.properties s = Ok props ->
  In (prop, PyDict ps) props ->
  lookup prop d = None ->
  Schema.optional (Schema.Build ps) <> Ok true ->
  fst (Validator._validate_no_push re fuel s (PyDict d) st) <> Returned tt.
Proof.
  intros Hp Hin Hl Ho Hret. destruct fuel as [|fuel]; [discriminate|].
  cbn [Validator._validate_no_push] in Hret.
  destruct (Validator._validate_no_push_body _ _ s (PyDict d) st)
    as [x st'] eqn:E.
  cbn in Hret. subst x.
  unfold Validator._validate_no_push_body in E.
  apply bind_returned in E. destruct E as (u1 & st1 & H1 & E).
  apply bind_returned in E. destruct E as (u2 & st2 & H2 & E).
  apply bind_returned in E. destruct E as (u3 & st3 & H3 & E).
  cbn [isinstance existsb instance_of orb] in H3.
  apply bind_returned in H3. destruct H3 as (u4 & st4 & H4 & H3).
  apply bind_returned in H3. destruct H3 as (u5 & st5 & H5 & H3).
  unfold Validator._validate_properties in H5. rewrite Hp in H5.
  apply bind_returned in H5. destruct H5 as (props' & st6 & H6 & H5).
  inversion H6; subst.
  destruct u5.
  destruct (_validate_properties_loop_returned _ _ _ _ H5 _ _ Hin)
    as (ps' & Hi & [Hk|Hopt]).
  - apply Hk, Hl.
  - inversion Hi; subst. apply Ho, Hopt.
Qed.

Lemma X5_missing_required_property_never_accepted_witness :
  fst (Validator._validate_no_push Examples.any_regex 3 Examples.named_only
         (PyDict [("b", PyInt 1)]) [])
  <> Returned tt.
Proof.
  apply (@X5_missing_required_property_never_accepted Examples.any_regex 3
           Examples.named_only [("b", PyInt 1)] []
           [("a", PyDict [("type", PyStr "string")])]
           "a" [("type", PyStr "string")]).
  - reflexivity.
  - left. reflexivity.
  - reflexivity.
  - discriminate.
Defined.

(** X6.  Properties that the document lacks and whose schemas say
    [optional: true] cost nothing: when all of [properties] is such,
    [_validate_properties] returns without a nested validation. *)
Theorem X6_missing_optional_properties_are_skipped rec s d st props :
  Schema.properties s = Ok props ->
  Forall (fun entry : string * pyobj =>
            lookup (fst entry) d = None
            /\ exists ps, snd entry = PyDict ps
                 /\ lookup "optional" ps = Some (PyBool true)) props ->
  Validator._validate_properties rec s (PyDict d) st = (Returned tt, st).
Proof.
  intros Hp Hall. unfold Validator._validate_properties.
  rewrite Hp. erewrite bind_returns by reflexivity.
  clear Hp. induction Hall as [|[prop data] props [Hl [ps [Hd Ho]]] _ IH];
    [reflexivity|].
  cbn in Hl, Hd. subst data. cbn [Validator._validate_properties_loop].
  erewrite bind_returns by reflexivity.
  rewrite Hl. unfold Schema.optional, dict_get. cbn [Schema._schema].
  rewrite Ho. erewrite bind_returns by reflexivity.
  exact IH.
Qed.

Lemma X6_missing_optional_properties_are_skipped_witness :
  Validator._validate_properties (fun _ _ => raise KeyError)
    (Schema.Build
       [("properties", PyDict [("a", PyDict [("optional", PyBool true)])])])
    (PyDict [("b", PyInt 1)]) []
  = (Returned tt, []).
Proof.
  apply (@X6_missing_optional_properties_are_skipped _ _ _ _
           [("a", PyDict [("optional", PyBool true)])]).
  - reflexivity.
  - constructor; [|constructor].
    split; [reflexivity|].
    exists [("optional", PyBool true)]. split; reflexivity.
Defined.

Lemma _unknown_property_loop_result s props d st :
  Schema.properties s = Ok props ->
  Validator._unknown_property_loop s d st
  = if forallb (fun entry : string * pyobj => has_key (fst entry) props) d
    then (Returned tt, st) else (Raised ValidationError, st).
Proof.
  intro Hp. induction d as [|[prop v] d IH]; [reflexivity|].
  cbn [Validator._unknown_property_loop forallb fst].
  rewrite Hp. erewrite bind_returns by reflexivity.
  destruct (has_key prop props); [exact IH | reflexivity].
Qed.

(** X7.  With [additionalProperties: false] the check of additional
    properties returns exactly when every key of the document is a key of
    [properties], and raises a [ValidationError] otherwise; no value is
    validated. *)
Theorem X7_additional_properties_disallowed rec s props d st :
  Schema.properties s = Ok props ->
  lookup "additionalProperties" (Schema._schema s) = Some (PyBool false) ->
  Validator._validate_additional_properties rec s (PyDict d) st
  = if forallb (fun entry : string * pyobj => has_key (fst entry) props) d
    then (Returned tt, st) else (Raised ValidationError, st).
Proof.
  intros Hp Ha. unfold Validator._validate_additional_properties.
  unfold Schema.additionalProperties, dict_get. rewrite Ha.
  erewrite bind_returns by reflexivity. cbn [is_False].
  apply _unknown_property_loop_result, Hp.
Qed.

Lemma X7_additional_properties_disallowed_witness :
  Validator._validate_additional_properties (fun _ _ => raise KeyError)
    (Schema.Build
       [("properties", PyDict [("a", PyDict [])]);
        ("additionalProperties", PyBool false)])
    (PyDict [("a", PyInt 1); ("b", PyInt 2)]) []
  = if forallb (fun entry : string * pyobj =>
                  has_key (fst entry) [("a", PyDict [])])
         [("a", PyInt 1); ("b", PyInt 2)]
    then (Returned tt, []) else (Raised ValidationError, []).
Proof.
  apply X7_additional_properties_disallowed; reflexivity.
Defined.

(** ** Arrays with one schema for all items *)

Lemma _validate_each_returns re fuel st s l :
  Validator._validate_each (Validator._validate_no_push re fuel) s l st
  = (Returned tt, st)
  <-> Forall (fun x =>
        Validator._validate (Validator._validate_no_push re fuel) s x st
        = (Returned tt, st)) l.
Proof.
  induction l as [|x l IH]; cbn [Validator._validate_each].
  - split; [constructor | reflexivity].
  - split.
    + intro H. apply bind_returned in H. destruct H as ([] & st1 & H1 & H).
      pose proof (@_validate_balanced _ (_validate_no_push_balanced re fuel)
                    s x st tt st1 H1) as Hb.
      subst st1. constructor; [exact H1 | apply IH, H].
    + intro H. inversion H as [|? ? Hx Hl]; subst.
      erewrite bind_returns by exact Hx. apply IH, Hl.
Qed.

(** X8.  When [items] is a non-empty nested schema, [_validate_items]
    returns on an array exactly when every element of the array is
    accepted by that schema. *)
Theorem X8_uniform_items re fuel s d l st :
  lookup "items" (Schema._schema s) = Some (PyDict d) ->
  d <> [] ->
  (Validator._validate_items (Validator._validate_no_push re fuel) s
     (PyList l) st = (Returned tt, st)
   <-> Forall (fun x => conforms re fuel st x (PyDict d)) l).
Proof.
  intros Hl Hd. unfold Validator._validate_items.
  unfold Schema.items, dict_get. rewrite Hl. cbn [isinstance existsb
    instance_of orb negb lift].
  destruct d as [|entry d]; [contradiction|].
  cbn [is_empty_dict Schema.__init__ lift].
  erewrite bind_returns by reflexivity. cbn [is_empty_dict].
  erewrite bind_returns by reflexivity.
  rewrite _validate_each_returns. split; intro H.
  - rewrite Forall_forall in *. intros x Hx.
    exists (Schema.Build (entry :: d)). split; [reflexivity|].
    rewrite (H x Hx). reflexivity.
  - rewrite Forall_forall in *. intros x Hx.
    destruct (conforms_runs (H x Hx)) as [s' [Hs Hv]].
    inversion Hs; subst. exact Hv.
Qed.

Lemma X8_uniform_items_witness :
  Validator._validate_items (Validator._validate_no_push Examples.any_regex 2)
    (Schema.Build [("items", PyDict [("type", PyStr "integer")])])
    (PyList [PyInt 1; PyInt 2]) []
  = (Returned tt, []).
Proof.
  apply (@X8_uniform_items Examples.any_regex 2 _
           [("type", PyStr "integer")] [PyInt 1; PyInt 2] []);
    [reflexivity | discriminate |].
  repeat constructor; eexists; (split; [reflexivity|]);
    vm_compute; reflexivity.
Defined.

(** ** A property name as [requires] *)

Lemma requires_name_result rec s obj name base parent top :
  lookup "requires" (Schema._schema s) = Some (PyStr name) ->
  Validator._validate_requires rec s obj (base ++ [parent; top])
  = if match parent with
       | PyDict d => has_key name d
       | _ => false
       end
    then (Returned tt, base ++ [parent; top])
    else (Raised ValidationError, base ++ [parent; top]).
Proof.
  intro Hl.
  destruct (@requires_of_lookup s (PyStr name) Hl) as [Hr He].
  { left. exists name. reflexivity. }
  unfold Validator._validate_requires.
  rewrite Hr. erewrite bind_returns by reflexivity.
  rewrite He. erewrite bind_returns by reflexivity.
  replace (List.length (base ++ [parent; top]) <? 2)%nat with false
    by (symmetry; apply Nat.ltb_ge; rewrite length_app; cbn; lia).
  rewrite penultimate.
  destruct parent; try reflexivity.
  destruct (has_key name entries); reflexivity.
Qed.

(** X9.  When [requires] is a property name and the stack holds a parent
    below its top entry, the requires check returns exactly when the
    parent is an object that has this property, and raises a
    [ValidationError] otherwise (also when the parent is an array). *)
Theorem X9_requires_property_of_parent rec s obj name base parent top :
  lookup "requires" (Schema._schema s) = Some (PyStr name) ->
  Validator._validate_requires rec s obj (base ++ [parent; top])
  = if match parent with
       | PyDict d => has_key name d
       | _ => false
       end
    then (Returned tt, base ++ [parent; top])
    else (Raised ValidationError, base ++ [parent; top]).
Proof. apply requires_name_result. Qed.

Lemma X9_requires_property_of_parent_witness :
  Validator._validate_requires (fun _ _ => raise KeyError)
    Examples.requires_b (PyInt 1)
    ([] ++ [PyDict [("a", PyInt 1); ("b", PyInt 2)]; PyInt 1])
  = if has_key "b" [("a", PyInt 1); ("b", PyInt 2)]
    then (Returned tt, [] ++ [PyDict [("a", PyInt 1); ("b", PyInt 2)]; PyInt 1])
    else (Raised ValidationError,
          [] ++ [PyDict [("a", PyInt 1); ("b", PyInt 2)]; PyInt 1]).
Proof.
  apply (@X9_requires_property_of_parent _ Examples.requires_b (PyInt 1) "b"
           [] (PyDict [("a", PyInt 1); ("b", PyInt 2)]) (PyInt 1)).
  reflexivity.
Defined.

(** ** The stack on return *)

(** X10.  When [_validate_no_push] returns, the object stack is as it was
    before the call: every [append] made on the way has been matched by a
    [pop]. *)
Theorem X10_returning_restores_the_stack re fuel s o st st' :
  Validator._validate_no_push re fuel s o st = (Returned tt, st') ->
  st' = st.
Proof. apply _validate_no_push_balanced. Qed.

Lemma X10_returning_restores_the_stack_witness :
  Validator._validate_no_push Examples.any_regex 2 Examples.named_only
    Examples.doc_a_x [PyNone] = (Returned tt, [PyNone])
  /\ [PyNone] = [PyNone].
Proof.
  assert (H : Validator._validate_no_push Examples.any_regex 2
                Examples.named_only Examples.doc_a_x [PyNone]
              = (Returned tt, [PyNone])) by (vm_compute; reflexivity).
  split; [exact H|].
  exact (@X10_returning_restores_the_stack Examples.any_regex 2
           Examples.named_only Examples.doc_a_x [PyNone] [PyNone] H).
Defined.

(** ** Termination and the empty schema *)

(** X11.  [Validator.validate] terminates on every schema and document:
    with fuel above the size of the call it returns [True] or raises.
    (The nested calls go to smaller schemas, or with the same empty
    schema to smaller values, although [requires] goes up to the
    parent.) *)
Theorem X11_validate_terminates re fuel s o :
  call_size (height o) s o < fuel ->
  Validator.validate re fuel s o = Returned true
  \/ exists e, Validator.validate re fuel s o = Raised e.
Proof.
  intro Hf. pose proof (@validate_total re fuel s o Hf) as Ht.
  revert Ht. unfold Validator.validate.
  destruct (fst _) as [[]|e|]; intro Ht.
  - left. reflexivity.
  - right. exists e. reflexivity.
  - contradiction.
Qed.

Lemma X11_validate_terminates_witness :
  Validator.validate Examples.any_regex 9 Examples.requires_object
    Examples.doc_a_1 = Returned true
  \/ exists e,
       Validator.validate Examples.any_regex 9 Examples.requires_object
         Examples.doc_a_1 = Raised e.
Proof.
  apply X11_validate_terminates. vm_compute. lia.
Defined.

(** X12.  The empty schema [{}] accepts every document: with fuel above
    the depth of the document, [Validator.validate] returns [True]. *)
Theorem X12_empty_schema_accepts_everything re fuel o :
  height o < fuel ->
  Validator.validate re fuel (Schema.Build []) o = Returned true.
Proof.
  intro Hf. unfold Validator.validate.
  rewrite (@empty_schema_accepts re fuel o [] Hf). reflexivity.
Qed.

Lemma X12_empty_schema_accepts_everything_witness :
  Validator.validate Examples.any_regex 3 (Schema.Build [])
    (PyDict [("a", PyList [PyInt 1; PyNone])]) = Returned true.
Proof.
  apply X12_empty_schema_accepts_everything. vm_compute. lia.
Defined.

(** ** The exceptions of the accessors *)

Section Harmless.

Variable re : string -> re_outcome.

Lemma external_bind A B (r : res A) (f : A -> res B) :
  external re r -> (forall a, external re (f a)) -> external re (res_bind r f).
Proof.
  intros Hr Hf e. destruct r as [a|e']; cbn.
  - apply Hf.
  - intro H. inversion H; subst. apply Hr. reflexivity.
Qed.

Lemma external_Ok A (a : A) : external re (Ok a).
Proof. intros e H. discriminate. Qed.

Ltac external_cases :=
  intro;
  repeat match goal with
  | |- context [match ?x with _ => _ end] => destruct x
  end;
  intro H; inversion H; left; reflexivity.

Lemma external_init v : external re (Schema.__init__ v).
Proof. unfold Schema.__init__. external_cases. Qed.

Lemma external_check_type_list seen l :
  external re (Schema.check_type_list seen l).
Proof.
  revert seen. induction l as [|t l IH]; intros seen e;
    cbn [Schema.check_type_list]; [discriminate|].
  destruct (isinstance t [C_dict]); [apply IH|].
  destruct (negb (hashable t)); [intro H; inversion H; left; reflexivity|].
  destruct (existsb (py_eq t) seen); [intro H; inversion H; left; reflexivity|].
  destruct (negb (Schema.is_simple_type_name t));
    [intro H; inversion H; left; reflexivity | apply IH].
Qed.

Lemma external_check_enum seen l : external re (Schema.check_enum seen l).
Proof.
  revert seen. induction l as [|t l IH]; intros seen e;
    cbn [Schema.check_enum]; [discriminate|].
  destruct (negb (hashable t)); [intro H; inversion H; left; reflexivity|].
  destruct (existsb (py_eq t) seen);
    [intro H; inversion H; left; reflexivity | apply IH].
Qed.

Lemma external_type s : external re (Schema.type s).
Proof.
  unfold Schema.type.
  destruct (negb _); [intros e H; inversion H; left; reflexivity|].
  apply external_bind; [apply external_check_type_list|].
  intro; apply external_Ok.
Qed.

Lemma external_properties s : external re (Schema.properties s).
Proof. unfold Schema.properties. external_cases. Qed.

Lemma external_items s : external re (Schema.items s).
Proof. unfold Schema.items. external_cases. Qed.

Lemma external_optional s : external re (Schema.optional s).
Proof. unfold Schema.optional. external_cases. Qed.

Lemma external_additionalProperties s :
  external re (Schema.additionalProperties s).
Proof. unfold Schema.additionalProperties. external_cases. Qed.

Lemma external_requires s : external re (Schema.requires s).
Proof. unfold Schema.requires. external_cases. Qed.

Lemma external_enum s : external re (Schema.enum s).
Proof.
  unfold Schema.enum.
  destruct (is_None _); [apply external_Ok|].
  destruct (dict_get _ _ _); try (intros e H; inversion H; left; reflexivity).
  destruct (_ =? _)%nat; [intros e H; inversion H; left; reflexivity|].
  apply external_bind; [apply external_check_enum|].
  intro; apply external_Ok.
Qed.

Lemma external_disallow s : external re (Schema.disallow s).
Proof.
  unfold Schema.disallow.
  destruct (is_None _); [apply external_Ok|].
  destruct (negb _); [intros e H; inversion H; left; reflexivity|].
  apply external_bind; [apply external_check_type_list|].
  intro; apply external_Ok.
Qed.

Lemma external_unsupported_when c :
  external re c -> external re (Validator.unsupported_when c).
Proof.
  intro Hc. apply external_bind; [exact Hc|].
  intros []; [intros e H; inversion H; left; reflexivity | apply external_Ok].
Qed.

Lemma external_is_set A (r : res (option A)) :
  external re r -> external re (Validator.is_set r).
Proof.
  intro Hr. apply external_bind; [exact Hr | intro; apply external_Ok].
Qed.

(** An exception of [re.compile] other than [re.error] escapes. *)
Lemma external_pattern s : external re (Schema.pattern re s).
Proof.
  unfold Schema.pattern. intro e.
  destruct (is_None _); [discriminate|].
  destruct (dict_get _ _ _) as [| | | | |p| |];
    try (intro H; inversion H; left; reflexivity).
  destruct (re p) eqn:E; intro H; inversion H; subst.
  - left. reflexivity.
  - right. exists p. exact E.
Qed.

Lemma external_report s : external re (Validator._report_unsupported re s).
Proof.
  unfold Validator._report_unsupported.
  repeat (apply external_bind; [|intros _]);
    apply external_unsupported_when;
    try apply external_is_set;
    try (apply external_bind; [|intro; apply external_Ok]);
    try apply external_disallow;
    try apply external_pattern.
  all: unfold Schema.minimum, Schema.maximum, Schema.numeric_or_None,
         Schema.minItems, Schema.minLength, Schema.non_negative_int,
         Schema.maxItems, Schema.maxLength, Schema.int_or_None,
         Schema.uniqueItems, Schema.format,
         Schema.contentEncoding, Schema.divisibleBy;
       external_cases.
Qed.

(** ** The stack only grows, and no internal exception is raised *)

Lemma tidy_ret A (a : A) : tidy re (ret a).
Proof.
  intros st o st' H. inversion H; subst. split.
  - exists []. symmetry. apply app_nil_r.
  - intros e He. discriminate.
Qed.

Lemma tidy_raise A e : harmless re e -> tidy re (@raise A e).
Proof.
  intros He st o st' H. inversion H; subst. split.
  - exists []. symmetry. apply app_nil_r.
  - intros e' He'. inversion He'; subst. exact He.
Qed.

Lemma tidy_lift A (r : res A) : external re r -> tidy re (lift r).
Proof.
  intro Hr. destruct r as [a|e]; [apply tidy_ret|].
  apply tidy_raise, Hr. reflexivity.
Qed.

Lemma tidy_bind A B (m : M A) (f : A -> M B) :
  tidy re m -> (forall a, tidy re (f a)) -> tidy re (bind m f).
Proof.
  intros Hm Hf st o st' H. unfold bind in H.
  destruct (m st) as [[a|e|] st1] eqn:E.
  - destruct (Hm _ _ _ E) as [[ext1 ->] _].
    destruct (Hf a _ _ _ H) as [[ext2 ->] Hs]. split; [|exact Hs].
    exists (ext1 ++ ext2). symmetry. apply app_assoc.
  - inversion H; subst. destruct (Hm _ _ _ E) as [Hx Hs].
    split; [exact Hx|]. intros e0 He0. inversion He0; subst.
    apply Hs. reflexivity.
  - inversion H; subst. destruct (Hm _ _ _ E) as [Hx _].
    split; [exact Hx|]. intros e0 He0. discriminate.
Qed.

Lemma tidy_lift_bind A B (r : res A) (f : A -> M B) :
  external re r -> (forall a, r = Ok a -> tidy re (f a)) -> tidy re (bind (lift r) f).
Proof.
  intros Hr Hf. destruct r as [a|e].
  - intros st o st' H. cbn in H. exact (Hf a eq_refl _ _ _ H).
  - intros st o st' H. cbn in H. inversion H; subst. split.
    + exists []. symmetry. apply app_nil_r.
    + intros e0 He0. inversion He0; subst. apply Hr. reflexivity.
Qed.

Lemma tidy_scoped_pop : tidy_scoped re pop.
Proof.
  intros st x o st' H. rewrite pop_append in H. inversion H; subst. split.
  - exists []. symmetry. apply app_nil_r.
  - intros e He. discriminate.
Qed.

Lemma tidy_scoped_bind A B (m : M A) (f : A -> M B) :
  tidy re m -> balanced m -> (forall a, tidy_scoped re (f a)) ->
  tidy_scoped re (bind m f).
Proof.
  intros Hm Hb Hf st x o st' H. unfold bind in H.
  destruct (m (st ++ [x])) as [[a|e|] st1] eqn:E.
  - rewrite (Hb _ _ _ E) in H. exact (Hf a _ _ _ _ H).
  - inversion H; subst. destruct (Hm _ _ _ E) as [[ext ->] Hs].
    split; [exists ([x] ++ ext); symmetry; apply app_assoc|].
    intros e0 He0. inversion He0; subst. apply Hs. reflexivity.
  - inversion H; subst. destruct (Hm _ _ _ E) as [[ext ->] Hs].
    split; [exists ([x] ++ ext); symmetry; apply app_assoc|].
    intros e0 He0. discriminate.
Qed.

Lemma pop_pushed st (x : pyobj) ext :
  exists ext', pop ((st ++ [x]) ++ ext) = (Returned tt, st ++ ext').
Proof.
  destruct ext as [|y ext] using rev_ind.
  - exists []. rewrite !app_nil_r. apply pop_append.
  - exists ([x] ++ ext). rewrite app_assoc, pop_append.
    rewrite <- app_assoc. reflexivity.
Qed.

Lemma tidy_scoped_try_finally A (m : M A) :
  tidy re m -> tidy_scoped re (try_finally m pop).
Proof.
  intros Hm st x o st' H. unfold try_finally in H.
  destruct (m (st ++ [x])) as [o1 st1] eqn:E.
  destruct (Hm _ _ _ E) as [[ext ->] Hs].
  destruct (pop_pushed st x ext) as [ext' Hp].
  destruct o1 as [a|e|].
  - rewrite Hp in H. inversion H; subst. split; [exists ext'; reflexivity|].
    intros e He. discriminate.
  - rewrite Hp in H. inversion H; subst. split; [exists ext'; reflexivity|].
    exact Hs.
  - inversion H; subst. split; [|intros e He; discriminate].
    exists ([x] ++ ext). symmetry. apply app_assoc.
Qed.

Lemma tidy_append A obj (m : M A) :
  tidy_scoped re m -> tidy re (append obj ;; m)%M.
Proof.
  intros Hm st o st' H. unfold bind, append in H. exact (Hm _ _ _ _ H).
Qed.

Section Tidy.

Variable rec : Schema.t -> pyobj -> M unit.
Hypothesis rec_tidy : forall s o, tidy re (rec s o).
Hypothesis rec_balanced : forall s o, balanced (rec s o).

Lemma _validate_tidy s o : tidy re (Validator._validate rec s o).
Proof. apply tidy_append, tidy_scoped_try_finally, rec_tidy. Qed.

Lemma _validate_type_loop_tidy o l :
  Forall (fun t => valid_alternative t = true) l ->
  tidy re (Validator._validate_type_loop rec o l).
Proof.
  induction l as [|t l IH]; intro Hv; cbn [Validator._validate_type_loop].
  - apply tidy_raise. left. reflexivity.
  - inversion Hv as [|? ? Hvt Hvl]; subst.
    destruct (py_eq t (PyStr "any")) eqn:Ea; [apply tidy_ret|].
    destruct (py_eq t (PyStr "boolean")) eqn:Eb.
    { destruct (negb (is_True o) && negb (is_False o));
        [apply tidy_raise; left; reflexivity | apply tidy_ret]. }
    destruct (isinstance t [C_dict]) eqn:Ed.
    { apply tidy_lift_bind; [apply external_init | intros; apply rec_tidy]. }
    destruct (type_map_of_name _ Hvt Ed Ea Eb) as [classes Hc]. rewrite Hc.
    destruct (isinstance o classes); [apply tidy_ret | apply IH, Hvl].
Qed.

Lemma _validate_type_tidy s o : tidy re (Validator._validate_type rec s o).
Proof.
  apply tidy_lift_bind; [apply external_type|]. intros l Hl.
  destruct l as [|t l]; [apply tidy_raise; left; reflexivity|].
  apply _validate_type_loop_tidy, (type_valid _ Hl).
Qed.

Lemma _validate_properties_loop_tidy d props :
  tidy re (Validator._validate_properties_loop rec d props).
Proof.
  induction props as [|[prop data] props IH];
    cbn [Validator._validate_properties_loop].
  - apply tidy_ret.
  - apply tidy_lift_bind; [apply external_init | intros ps _].
    apply tidy_bind; [|intro; exact IH].
    destruct (lookup prop d); [apply _validate_tidy|].
    apply tidy_lift_bind; [apply external_optional | intros [] _];
      [apply tidy_ret | apply tidy_raise; left; reflexivity].
Qed.

Lemma _unknown_property_loop_tidy s d :
  tidy re (Validator._unknown_property_loop s d).
Proof.
  induction d as [|[prop v] d IH]; cbn [Validator._unknown_property_loop].
  - apply tidy_ret.
  - apply tidy_lift_bind; [apply external_properties | intros props _].
    destruct (negb (has_key prop props));
      [apply tidy_raise; left; reflexivity | exact IH].
Qed.

Lemma _additional_values_loop_tidy s d :
  tidy re (Validator._additional_values_loop rec s d).
Proof.
  induction d as [|[prop v] d IH]; cbn [Validator._additional_values_loop].
  - apply tidy_ret.
  - apply tidy_bind; [apply _validate_tidy | intro; exact IH].
Qed.

Lemma _validate_enum_tidy s o : tidy re (Validator._validate_enum s o).
Proof.
  apply tidy_lift_bind; [apply external_enum | intros [allowed|] _];
    [|apply tidy_ret].
  destruct (existsb _ allowed); [apply tidy_ret|].
  apply tidy_raise; left; reflexivity.
Qed.

Lemma _validate_each_tidy s l : tidy re (Validator._validate_each rec s l).
Proof.
  induction l as [|item l IH]; cbn [Validator._validate_each].
  - apply tidy_ret.
  - apply tidy_bind; [apply _validate_tidy | intro; exact IH].
Qed.

Lemma _validate_pairs_tidy pairs : tidy re (Validator._validate_pairs rec pairs).
Proof.
  induction pairs as [|[item sj] pairs IH]; cbn [Validator._validate_pairs].
  - apply tidy_ret.
  - apply tidy_lift_bind; [apply external_init | intros s _].
    apply tidy_bind; [apply _validate_tidy | intro; exact IH].
Qed.

(** On a dict the [assert] of [_validate_properties] holds. *)
Lemma _validate_properties_tidy s d :
  tidy re (Validator._validate_properties rec s (PyDict d)).
Proof.
  apply tidy_lift_bind; [apply external_properties | intros props _].
  apply _validate_properties_loop_tidy.
Qed.

Lemma _validate_additional_properties_tidy s d :
  tidy re (Validator._validate_additional_properties rec s (PyDict d)).
Proof.
  apply tidy_lift_bind; [apply external_additionalProperties | intros ap _].
  destruct (is_False ap); [apply _unknown_property_loop_tidy|].
  apply tidy_lift_bind; [apply external_init | intros s' _].
  apply _additional_values_loop_tidy.
Qed.

Lemma _validate_items_tidy s l :
  tidy re (Validator._validate_items rec s (PyList l)).
Proof.
  apply tidy_lift_bind; [apply external_items | intros isj _].
  destruct (is_empty_dict isj); [apply tidy_ret|].
  destruct isj; try apply tidy_ret.
  - destruct (_ <? _)%nat; [apply tidy_raise; left; reflexivity|].
    apply tidy_bind.
    + destruct (negb _); [|apply tidy_ret].
      apply tidy_lift_bind;
        [apply external_additionalProperties | intros ap _].
      destruct (is_False ap); [apply tidy_raise; left; reflexivity | apply tidy_ret].
    + intro. apply tidy_lift_bind;
        [apply external_additionalProperties | intros fillvalue _].
      apply _validate_pairs_tidy.
  - apply tidy_lift_bind; [apply external_init | intros s' _].
    apply _validate_each_tidy.
Qed.

Lemma _validate_requires_tidy s o : tidy re (Validator._validate_requires rec s o).
Proof.
  apply tidy_lift_bind; [apply external_requires | intros rj _].
  destruct (is_empty_dict rj); [apply tidy_ret|].
  intros st r st' H. unfold bind at 1, get_stack in H.
  destruct (List.length st <? 2)%nat.
  { exact (@tidy_raise unit ValidationError (or_introl eq_refl) _ _ _ H). }
  destruct rj as [| | | | |name| |d'];
    try exact (@tidy_ret unit tt _ _ _ H).
  - destruct (nth (List.length st - 2) st PyNone) as [| | | | | | |d];
      try exact (@tidy_raise unit ValidationError (or_introl eq_refl) _ _ _ H).
    destruct (has_key name d);
      [exact (@tidy_ret unit tt _ _ _ H)
      | exact (@tidy_raise unit ValidationError (or_introl eq_refl) _ _ _ H)].
  - cbn in H. inversion H; subst. split.
    + exists []. symmetry. apply app_nil_r.
    + intros e He.
      destruct (rec (Schema.Build d') (nth (List.length st' - 2) st' PyNone)
                  (firstn (List.length st' - 2) st')) as [r1 st1] eqn:E.
      cbn in He. subst r1. exact (proj2 (rec_tidy E) e eq_refl).
Qed.

Lemma _validate_no_push_body_tidy s o :
  tidy re (Validator._validate_no_push_body re rec s o).
Proof.
  unfold Validator._validate_no_push_body.
  apply tidy_bind; [apply _validate_type_tidy | intros _].
  apply tidy_bind; [apply _validate_requires_tidy | intros _].
  apply tidy_bind; [|intros _; apply tidy_lift, external_report].
  destruct o as [| | | | | |l|d];
    try apply _validate_enum_tidy.
  - cbn [isinstance existsb instance_of orb].
    apply tidy_append.
    apply tidy_scoped_bind;
      [apply _validate_items_tidy
      | apply _validate_items_balanced, rec_balanced | intros _].
    apply tidy_scoped_pop.
  - cbn [isinstance existsb instance_of orb].
    apply tidy_append.
    apply tidy_scoped_bind;
      [apply _validate_properties_tidy
      | apply _validate_properties_balanced, rec_balanced | intros _].
    apply tidy_scoped_bind;
      [apply _validate_additional_properties_tidy
      | apply _validate_additional_properties_balanced, rec_balanced
      | intros _].
    apply tidy_scoped_pop.
Qed.

End Tidy.

Lemma _validate_no_push_tidy fuel s o :
  tidy re (Validator._validate_no_push re fuel s o).
Proof.
  revert s o. induction fuel as [|fuel IH]; intros s o.
  - intros st r st' H. inversion H; subst. split.
    + exists []. symmetry. apply app_nil_r.
    + intros e He. discriminate.
  - apply _validate_no_push_body_tidy; [exact IH|].
    intros. apply _validate_no_push_balanced.
Qed.

End Harmless.

(** X13.  Whatever [_validate_no_push] does (return, raise, in any nested
    frame), the stack it leaves starts with the stack it was given: the
    validator never pops an entry it did not push. *)
Theorem X13_stack_only_grows re fuel s o st r st' :
  Validator._validate_no_push re fuel s o st = (r, st') ->
  exists pushed, st' = st ++ pushed.
Proof. intro H. exact (proj1 (@_validate_no_push_tidy re fuel s o _ _ _ H)). Qed.

Lemma X13_stack_only_grows_witness :
  exists pushed, [PyNone; Examples.doc_a_1] = [PyNone] ++ pushed.
Proof.
  apply (@X13_stack_only_grows Examples.any_regex 2 Examples.named_only
           Examples.doc_a_1 [PyNone] (Raised ValidationError)).
  vm_compute. reflexivity.
Defined.



(** ** What a schema that accepts a document cannot say *)

Lemma unsupported_when_ok c k :
  (Validator.unsupported_when c ;; k)%res = Ok tt ->
  c = Ok false /\ k = Ok tt.
Proof.
  unfold Validator.unsupported_when.
  destruct c as [[]|e]; cbn; intro H; try discriminate.
  split; [reflexivity | exact H].
Qed.

Lemma unsupported_when_ok_last c :
  Validator.unsupported_when c = Ok tt -> c = Ok false.
Proof.
  unfold Validator.unsupported_when.
  destruct c as [[]|e]; cbn; intro H; try discriminate. reflexivity.
Qed.

Lemma is_set_false A (r : res (option A)) :
  Validator.is_set r = Ok false -> r = Ok None.
Proof.
  destruct r as [[a|]|e]; cbn; intro H; try discriminate. reflexivity.
Qed.

Lemma numeric_or_None_unset s key :
  Schema.numeric_or_None s key = Ok None -> keyword_unset s key.
Proof.
  unfold Schema.numeric_or_None, keyword_unset.
  destruct (is_None _); [reflexivity|].
  destruct (negb _); discriminate.
Qed.

Lemma int_or_None_unset s key :
  Schema.int_or_None s key = Ok None -> keyword_unset s key.
Proof.
  unfold Schema.int_or_None, keyword_unset.
  destruct (is_None _); [reflexivity|].
  destruct (negb _); discriminate.
Qed.

Lemma non_negative_int_zero s key :
  (v <- Schema.non_negative_int s key ;; Ok (negb (py_eq v (PyInt 0))))%res
  = Ok false ->
  keyword_equals s key (PyInt 0).
Proof.
  unfold Schema.non_negative_int, keyword_equals.
  destruct (negb (isinstance _ _)); [discriminate|].
  destruct (py_negative _); [discriminate|].
  cbn [res_bind]. intro H. apply negb_false_iff. congruence.
Qed.

Lemma report_ok_inv re s :
  Validator._report_unsupported re s = Ok tt ->
  keyword_unset s "minimum" /\ keyword_unset s "maximum"
  /\ keyword_equals s "minItems" (PyInt 0) /\ keyword_unset s "maxItems"
  /\ keyword_equals s "uniqueItems" (PyBool false)
  /\ keyword_unset s "pattern"
  /\ keyword_equals s "minLength" (PyInt 0) /\ keyword_unset s "maxLength"
  /\ keyword_unset s "format" /\ keyword_unset s "contentEncoding"
  /\ keyword_equals s "divisibleBy" (PyInt 1)
  /\ keyword_unset s "disallow".
Proof.
  unfold Validator._report_unsupported. intro H.
  apply unsupported_when_ok in H. destruct H as [H1 H].
  apply unsupported_when_ok in H. destruct H as [H2 H].
  apply unsupported_when_ok in H. destruct H as [H3 H].
  apply unsupported_when_ok in H. destruct H as [H4 H].
  apply unsupported_when_ok in H. destruct H as [H5 H].
  apply unsupported_when_ok in H. destruct H as [H6 H].
  apply unsupported_when_ok in H. destruct H as [H7 H].
  apply unsupported_when_ok in H. destruct H as [H8 H].
  apply unsupported_when_ok in H. destruct H as [H9 H].
  apply unsupported_when_ok in H. destruct H as [H10 H].
  apply unsupported_when_ok in H. destruct H as [H11 H].
  apply unsupported_when_ok_last in H.
  apply is_set_false in H1, H2, H4, H6, H8, H9, H10, H.
  repeat split.
  - apply numeric_or_None_unset, H1.
  - apply numeric_or_None_unset, H2.
  - apply non_negative_int_zero, H3.
  - apply int_or_None_unset, H4.
  - revert H5. unfold Schema.uniqueItems, keyword_equals.
    destruct (dict_get _ _ _) as [|[]| | | | | |]; cbn; try discriminate.
    reflexivity.
  - revert H6. unfold Schema.pattern, keyword_unset.
    destruct (is_None _); [reflexivity|].
    destruct (dict_get _ _ _); try discriminate.
    destruct (re s0); discriminate.
  - apply non_negative_int_zero, H7.
  - apply int_or_None_unset, H8.
  - revert H9. unfold Schema.format, keyword_unset.
    destruct (is_None _); [reflexivity|].
    destruct (dict_get _ _ _); try discriminate.
    destruct (str_in _ _); discriminate.
  - revert H10. unfold Schema.contentEncoding, keyword_unset.
    destruct (is_None _); [reflexivity|].
    destruct (dict_get _ _ _); try discriminate.
    destruct (negb (str_in _ _)); [discriminate|].
    destruct (negb (String.eqb _ _)); discriminate.
  - revert H11. unfold Schema.divisibleBy, keyword_equals.
    destruct (is_None _); [cbn; discriminate|].
    destruct (negb (isinstance _ _)); [discriminate|].
    destruct (py_negative _); [discriminate|].
    cbn [res_bind]. intro H'. apply negb_false_iff. congruence.
  - revert H. unfold Schema.disallow, keyword_unset.
    destruct (is_None _); [reflexivity|].
    destruct (negb _); [discriminate|].
    destruct (Schema.check_type_list _ _) as [[]|e]; discriminate.
Qed.

(** X15.  [Validator.validate] returns [True] only for a schema in which
    none of the unsupported keywords is set: [minimum], [maximum],
    [maxItems], [pattern], [maxLength], [format], [contentEncoding] and
    [disallow] are absent or [null], [minItems] and [minLength] equal 0,
    [uniqueItems] is [false] and [divisibleBy] equals 1 (each of the last
    four possibly by default). *)
Theorem X15_accepting_schema_sets_no_unsupported_keyword re fuel s o :
  Validator.validate re fuel s o = Returned true ->
  keyword_unset s "minimum" /\ keyword_unset s "maximum"
  /\ keyword_equals s "minItems" (PyInt 0) /\ keyword_unset s "maxItems"
  /\ keyword_equals s "uniqueItems" (PyBool false)
  /\ keyword_unset s "pattern"
  /\ keyword_equals s "minLength" (PyInt 0) /\ keyword_unset s "maxLength"
  /\ keyword_unset s "format" /\ keyword_unset s "contentEncoding"
  /\ keyword_equals s "divisibleBy" (PyInt 1)
  /\ keyword_unset s "disallow".
Proof.
  intro H. apply validate_returned in H. destruct H as [st' H].
  destruct fuel as [|fuel]; [discriminate|].
  cbn [Validator._validate_no_push] in H.
  unfold Validator._validate_no_push_body in H.
  apply bind_returned in H. destruct H as (u1 & st1 & H1 & H).
  apply bind_returned in H. destruct H as (u2 & st2 & H2 & H).
  apply bind_returned in H. destruct H as (u3 & st3 & H3 & H).
  apply (report_ok_inv re).
  destruct (Validator._report_unsupported re s) as [[]|e];
    [reflexivity | discriminate].
Qed.

Lemma X15_accepting_schema_sets_no_unsupported_keyword_witness :
  keyword_unset Examples.enum_123 "minimum"
  /\ keyword_unset Examples.enum_123 "maximum"
  /\ keyword_equals Examples.enum_123 "minItems" (PyInt 0)
  /\ keyword_unset Examples.enum_123 "maxItems"
  /\ keyword_equals Examples.enum_123 "uniqueItems" (PyBool false)
  /\ keyword_unset Examples.enum_123 "pattern"
  /\ keyword_equals Examples.enum_123 "minLength" (PyInt 0)
  /\ keyword_unset Examples.enum_123 "maxLength"
  /\ keyword_unset Examples.enum_123 "format"
  /\ keyword_unset Examples.enum_123 "contentEncoding"
  /\ keyword_equals Examples.enum_123 "divisibleBy" (PyInt 1)
  /\ keyword_unset Examples.enum_123 "disallow".
Proof.
  apply (@X15_accepting_schema_sets_no_unsupported_keyword
           Examples.any_regex 1 Examples.enum_123 (PyInt 2)).
  vm_compute. reflexivity.
Defined.

(** ** More on the type check *)

(** X16.  When [type] is the single name ["boolean"], the type check
    returns on [true] and [false] and raises a [ValidationError] on every
    other value, the integers 0 and 1 included. *)
Theorem X16_boolean_accepts_only_booleans rec s obj st :
  lookup "type" (Schema._schema s) = Some (PyStr "boolean") ->
  Validator._validate_type rec s obj st
  = match obj with
    | PyBool _ => (Returned tt, st)
    | _ => (Raised ValidationError, st)
    end.
Proof.
  intro H. unfold Validator._validate_type, Schema.type, dict_get.
  rewrite H. cbn.
  destruct obj as [|[]| | | | | |]; reflexivity.
Qed.

Lemma X16_boolean_accepts_only_booleans_witness :
  Validator._validate_type (fun _ _ => raise KeyError)
    (Schema.Build [("type", PyStr "boolean")]) (PyInt 1) []
  = (Raised ValidationError, []).
Proof.
  apply (@X16_boolean_accepts_only_booleans _
           (Schema.Build [("type", PyStr "boolean")]) (PyInt 1) []).
  reflexivity.
Defined.

Lemma _validate_type_loop_then_nested rec obj st l d :
  Forall (fun t => valid_alternative t = true) l ->
  Forall (fun t => plain_name t = true) l ->
  Validator._validate_type_loop rec obj (l ++ [PyDict d]) st
  = if existsb (alternative_matches obj) l
    then (Returned tt, st) else rec (Schema.Build d) obj st.
Proof.
  induction l as [|t l IH]; intros Hv Hp; [reflexivity|].
  inversion Hv as [|? ? Hvt Hvl]; subst.
  inversion Hp as [|? ? Hpt Hpl]; subst.
  destruct (plain_name_tests _ Hpt) as [Hd Hb].
  cbn [app Validator._validate_type_loop existsb].
  unfold alternative_matches at 1.
  destruct (py_eq t (PyStr "any")) eqn:Ea; [reflexivity|].
  rewrite Hb, Hd.
  destruct (type_map_of_name _ Hvt Hd Ea Hb) as [classes Hc]. rewrite Hc.
  cbn [orb].
  destruct (isinstance obj classes); [reflexivity|].
  apply IH; assumption.
Qed.

(** X17.  When the [type] list is simple type names other than
    ["boolean"] followed by one nested schema, the type check returns
    if the value is of the kind of one of the names, and otherwise is the
    validation of the same value against the nested schema, on the same
    stack. *)
Theorem X17_names_then_nested_schema rec s obj st l d :
  Schema.type s = Ok (l ++ [PyDict d]) ->
  Forall (fun t => plain_name t = true) l ->
  Validator._validate_type rec s obj st
  = if existsb (alternative_matches obj) l
    then (Returned tt, st) else rec (Schema.Build d) obj st.
Proof.
  intros H Hp. unfold Validator._validate_type.
  rewrite H. erewrite bind_returns by reflexivity.
  pose proof (type_valid _ H) as Hv. apply Forall_app in Hv.
  destruct Hv as [Hv _].
  rewrite <- (_validate_type_loop_then_nested rec obj st d Hv Hp).
  destruct l; reflexivity.
Qed.

Lemma X17_names_then_nested_schema_witness :
  Validator._validate_type (Validator._validate_no_push Examples.any_regex 1)
    Examples.string_or_nested_number (PyInt 5) []
  = if existsb (alternative_matches (PyInt 5)) [PyStr "string"]
    then (Returned tt, [])
    else Validator._validate_no_push Examples.any_regex 1
           (Schema.Build [("type", PyStr "number")]) (PyInt 5) [].
Proof.
  apply (@X17_names_then_nested_schema _ Examples.string_or_nested_number
           (PyInt 5) [] [PyStr "string"] [("type", PyStr "number")]).
  - reflexivity.
  - repeat constructor.
Defined.

(** ** [requires] on a property, from the root *)

(** The schema [{"requires": name}] on a value whose parent is the
    object [d]. *)
Lemma requires_only_schema re fuel name d v :
  height v < fuel ->
  Validator._validate_no_push re fuel
    (Schema.Build [("requires", PyStr name)]) v ([] ++ [PyDict d; v])
  = if has_key name d
    then (Returned tt, [] ++ [PyDict d; v])
    else (Raised ValidationError, [] ++ [PyDict d; v]).
Proof.
  intro Hf. destruct fuel as [|fuel]; [lia|].
  cbn [Validator._validate_no_push].
  unfold Validator._validate_no_push_body.
  erewrite bind_returns by reflexivity. cbv beta.
  unfold bind at 1.
  rewrite (@requires_name_result (Validator._validate_no_push re fuel)
             (Schema.Build [("requires", PyStr name)]) v name []
             (PyDict d) v eq_refl).
  destruct (has_key name d); [|reflexivity].
  destruct v as [| b | z | z | q | s | l | d']; try reflexivity.
  eapply bind_then; [|reflexivity].
  cbn [isinstance existsb instance_of orb].
  erewrite bind_returns by reflexivity.
  erewrite bind_returns by reflexivity.
  eapply bind_then; [|apply pop_append].
  unfold Validator._validate_additional_properties.
  erewrite bind_returns by reflexivity.
  cbn [is_False dict_get lookup Schema._schema String.eqb Ascii.eqb
         Bool.eqb].
  erewrite bind_returns by reflexivity.
  apply _additional_values_loop_returns.
  intros k w Hin. apply empty_schema_accepts.
  apply height_dict_In in Hin. lia.
Qed.

(** X18.  Against [{"properties": {a: {"requires": b}}}], a document
    object that has the property [a] is accepted exactly when it also has
    the property [b], and gets a [ValidationError] otherwise: the parent
    the requires check looks at is the object that holds the property. *)
Theorem X18_requires_sibling_property re fuel a b d v :
  lookup a d = Some v ->
  height (PyDict d) < fuel ->
  Validator.validate re fuel
    (Schema.Build
       [("properties", PyDict [(a, PyDict [("requires", PyStr b)])])])
    (PyDict d)
  = if has_key b d then Returned true else Raised ValidationError.
Proof.
  intros Ha Hf. destruct fuel as [|fuel]; [lia|].
  pose proof (height_lookup _ _ Ha) as Hv.
  assert (Hrun :
    Validator._validate_no_push re (S fuel)
      (Schema.Build
         [("properties", PyDict [(a, PyDict [("requires", PyStr b)])])])
      (PyDict d) []
    = if has_key b d then (Returned tt, [])
      else (Raised ValidationError, [] ++ [PyDict d]));
    [|unfold Validator.validate; rewrite Hrun;
      destruct (has_key b d); reflexivity].
  cbn [Validator._validate_no_push].
  unfold Validator._validate_no_push_body.
  erewrite bind_returns by reflexivity.
  erewrite bind_returns by reflexivity.
  cbn [isinstance existsb instance_of orb].
  assert (Hprop :
    Validator._validate (Validator._validate_no_push re fuel)
      (Schema.Build [("requires", PyStr b)]) v ([] ++ [PyDict d])
    = if has_key b d then (Returned tt, [] ++ [PyDict d])
      else (Raised ValidationError, [] ++ [PyDict d])).
  { unfold Validator._validate, bind, append, try_finally.
    change (([] ++ [PyDict d]) ++ [v]) with ([] ++ [PyDict d; v]).
    rewrite requires_only_schema by lia.
    destruct (has_key b d); reflexivity. }
  destruct (has_key b d) eqn:Eb.
  - eapply bind_then; [|reflexivity].
    erewrite bind_returns by reflexivity.
    eapply bind_then.
    { unfold Validator._validate_properties.
      erewrite bind_returns by reflexivity.
      cbn [Validator._validate_properties_loop].
      erewrite bind_returns by reflexivity.
      rewrite Ha. erewrite bind_returns by exact Hprop. reflexivity. }
    eapply bind_then; [|apply pop_append].
    unfold Validator._validate_additional_properties.
    erewrite bind_returns by reflexivity.
    cbn [is_False dict_get lookup Schema._schema String.eqb Ascii.eqb
           Bool.eqb].
    erewrite bind_returns by reflexivity.
    apply _additional_values_loop_returns.
    intros k w Hin. apply empty_schema_accepts.
    apply height_dict_In in Hin. lia.
  - erewrite bind_raises; [reflexivity|].
    erewrite bind_returns by reflexivity.
    erewrite bind_raises; [reflexivity|].
    unfold Validator._validate_properties.
    erewrite bind_returns by reflexivity.
    cbn [Validator._validate_properties_loop].
    erewrite bind_returns by reflexivity.
    rewrite Ha. erewrite bind_raises by exact Hprop. reflexivity.
Qed.

Lemma X18_requires_sibling_property_witness :
  Validator.validate Examples.any_regex 2
    (Schema.Build
       [("properties", PyDict [("a", PyDict [("requires", PyStr "b")])])])
    (PyDict [("a", PyInt 1)])
  = if has_key "b" [("a", PyInt 1)]
    then Returned true else Raised ValidationError.
Proof.
  apply (@X18_requires_sibling_property Examples.any_regex 2 "a" "b"
           [("a", PyInt 1)] (PyInt 1));
    [reflexivity | vm_compute; lia].
Defined.
